(** * The ovsbridge CNI plugin: configuration loading, attachment and teardown

    A shallow embedding of [plugins/main/ovsbridge/ovsbridge.go].  The plugin
    is an orchestrator: apart from [loadNetConf] everything it does is a call
    on a collaborator (the OVS switch client, the namespace library, the veth
    factory, the result printer).  The collaborators are therefore taken as an
    interface ([Host]) whose answers may depend on everything that happened
    before, and the plugin's functions are programs in an error monad that
    records every call together with its outcome. *)

From Stdlib Require Import String Ascii List ZArith NArith Bool.
Import ListNotations.
Local Open Scope string_scope.
Local Open Scope list_scope.

(* ===================================================================== *)
(** * Errors *)
(* ===================================================================== *)

(** Go [error] values.  The messages built with [fmt.Errorf] are kept in
    structured form: one constructor per format string of the source, with
    the formatted arguments as fields. *)
Inductive error : Type :=
| SyntaxError                           (* encoding/json: invalid JSON text *)
| UnmarshalTypeError (key : string)     (* encoding/json: value of the wrong kind *)
| Foreign (msg : string)                (* an error value made by a collaborator *)
| FailedToLoadNetconf (cause : error)   (* "failed to load netconf: %v" *)
| FailedToCreateBridge (brName : string) (cause : error)
                                        (* "failed to create bridge %q: %v" *)
| FailedToOpenNetns (path : string) (cause : error)
                                        (* "failed to open netns %q: %v" *)
| FailedToConnect (ifName bridgeName : string) (cause : error).
                                        (* "failed to connect %q to bridge %v: %v" *)

(* ===================================================================== *)
(** * JSON documents and [encoding/json]'s struct decoding *)
(* ===================================================================== *)

(** A JSON value as [encoding/json] scans it.  Objects keep their members in
    document order, duplicates included, because the decoder visits them one
    after the other. *)
#[local] Unset Elimination Schemes.
Inductive json : Type :=
| JNull
| JBool (b : bool)
| JInt (z : Z)              (* a number literal without fraction or exponent *)
| JReal (literal : string)  (* any other number literal *)
| JString (s : string)
| JArray (items : list json)
| JObject (members : list (string * json)).
#[local] Set Elimination Schemes.

(** [caseMask] and [simpleLetterEqualFold] of encoding/json's fold.go: the
    matcher chosen for a field name made of ASCII letters other than k and s,
    which is the case of the three names declared by the plugin. *)
Definition caseMask : N := 223.   (* ^byte(0x20) *)

Definition maskByte (b : ascii) : N := N.land (N_of_ascii b) caseMask.

Fixpoint simpleLetterEqualFold (s t : string) : bool :=
  match s, t with
  | EmptyString, EmptyString => true
  | String b s', String c t' =>
      (maskByte b =? maskByte c)%N && simpleLetterEqualFold s' t'
  | _, _ => false
  end.

(** The declarations of [types.NetConf] live in the CNI library.  The plugin
    embeds the struct, reads its [CNIVersion] and nothing else, so the struct
    is taken through this interface: its zero value, the reader of
    [CNIVersion], and for a member key the decoder of the promoted field that
    the key names, if any ([None] from the decoder is a type mismatch). *)
Class TypesNetConf : Type := {
  types_NetConf : Type;
  types_zero : types_NetConf;
  CNIVersion : types_NetConf -> string;
  types_field : string -> option (json -> types_NetConf -> option types_NetConf)
}.

Definition defaultBrName : string := "ovsbr0".

Section Configuration.
Context {T : TypesNetConf}.

(** [type NetConf struct { types.NetConf; BrName string `json:"bridge"`;
    MTU int `json:"mtu"`; PNIC string `json:"pNIC"` }] *)
Record NetConf : Type := mkNetConf {
  embedded : types_NetConf;
  BrName : string;
  MTU : Z;
  PNIC : string
}.

(** Decoding one JSON value into a Go [string] field: a string is stored,
    [null] leaves the field as it is, anything else is a type error. *)
Definition decodeString (v : json) (old : string) : option string :=
  match v with
  | JString s => Some s
  | JNull => Some old
  | _ => None
  end.

(** Decoding into a Go [int] field (64 bits): an integer literal in range is
    stored, [null] leaves the field as it is. *)
Definition decodeInt (v : json) (old : Z) : option Z :=
  match v with
  | JInt z => if ((- 2 ^ 63 <=? z) && (z <? 2 ^ 63))%Z then Some z else None
  | JNull => Some old
  | _ => None
  end.

(** One member [key: v] of the top-level object, decoded into [n].  The
    decoder takes the field whose name is the key, or else one whose name
    folds to it; the three fields of the plugin are tried first, no promoted
    field of [types.NetConf] bearing one of their names.  A key that names no
    field is skipped. *)
Definition decodeMember (key : string) (v : json) (n : NetConf) : option NetConf :=
  if simpleLetterEqualFold "bridge" key then
    option_map (fun s => mkNetConf (embedded n) s (MTU n) (PNIC n))
               (decodeString v (BrName n))
  else if simpleLetterEqualFold "mtu" key then
    option_map (fun z => mkNetConf (embedded n) (BrName n) z (PNIC n))
               (decodeInt v (MTU n))
  else if simpleLetterEqualFold "pNIC" key then
    option_map (fun s => mkNetConf (embedded n) (BrName n) (MTU n) s)
               (decodeString v (PNIC n))
  else
    match types_field key with
    | Some dec =>
        option_map (fun e => mkNetConf e (BrName n) (MTU n) (PNIC n))
                   (dec v (embedded n))
    | None => Some n
    end.

(** The members in document order.  The decoder reports the first mismatch
    once it has seen the whole object; the caller drops the struct then, so
    stopping at the mismatch is the same. *)
Fixpoint decodeObject (members : list (string * json)) (n : NetConf)
  : error + NetConf :=
  match members with
  | [] => inr n
  | (key, v) :: rest =>
      match decodeMember key v n with
      | Some n' => decodeObject rest n'
      | None => inl (UnmarshalTypeError key)
      end
  end.

(** [json.Unmarshal(bytes, n)] with [n] a pointer to a [NetConf].  The bytes
    are held in scanned form: [None] when they are not valid JSON. *)
Definition Unmarshal (bytes : option json) (n : NetConf) : error + NetConf :=
  match bytes with
  | None => inl SyntaxError
  | Some JNull => inr n
  | Some (JObject members) => decodeObject members n
  | Some _ => inl (UnmarshalTypeError EmptyString)
  end.

(** [func loadNetConf(bytes []byte)]: the configuration with its
    [CNIVersion], or an error. *)
Definition loadNetConf (bytes : option json) : error + (NetConf * string) :=
  let n := mkNetConf types_zero defaultBrName 0 EmptyString in
  match Unmarshal bytes n with
  | inl err => inl (FailedToLoadNetconf err)
  | inr n => inr (n, CNIVersion (embedded n))
  end.

End Configuration.

(* ===================================================================== *)
(** * Values exchanged with the collaborators *)
(* ===================================================================== *)

Module net.
(** Go's [net.Interface]. *)
Record Interface : Type := mkInterface {
  Index : Z;
  MTU : Z;
  Name : string;
  HardwareAddr : list Byte.byte;
  Flags : Z
}.

Definition hexDigit (n : N) : ascii :=
  match String.get (N.to_nat n) "0123456789abcdef" with
  | Some c => c
  | None => "0"%char
  end.

(** The loop of [HardwareAddr.String]: a colon before every byte but the
    first, then the two hex digits [hexDigit[b>>4]] and [hexDigit[b&0xF]]. *)
Fixpoint appendHex (i : nat) (a : list Byte.byte) : string :=
  match a with
  | [] => EmptyString
  | b :: rest =>
      (if (0 <? i)%nat then ":" else EmptyString)
        ++ String (hexDigit (N.shiftr (Byte.to_N b) 4))
             (String (hexDigit (N.land (Byte.to_N b) 15)) (appendHex (S i) rest))
  end.

(** [func (a HardwareAddr) String() string] *)
Definition HardwareAddr_String (a : list Byte.byte) : string :=
  if (length a =? 0)%nat then EmptyString else appendHex 0 a.
End net.

Module current.
(** [current.Interface]: the descriptor of one interface in a result.  An
    empty [Sandbox] is the host: no owning namespace. *)
Record Interface : Type := mkInterface {
  Name : string;
  Mac : string;
  Sandbox : string
}.

(** [current.Result], with the one field the plugin assigns.  The addresses,
    routes and DNS of a result are neither read nor written by the plugin. *)
Record Result : Type := mkResult {
  Interfaces : list Interface
}.
End current.

(** The switch handle made by [NewOVSSwitch]; [bridgeName] is the one field
    the plugin reads. *)
Record OVSSwitch : Type := mkOVSSwitch { bridgeName : string }.

(** A namespace handle of the [ns] package.  [ns.GetNS] opens the file at the
    path it is given and [Path()] reports the name of that file. *)
Record NetNS : Type := mkNetNS { Path : string }.

(** [skel.CmdArgs].  [StdinData] is held in scanned form, see [Unmarshal]. *)
Record CmdArgs : Type := mkCmdArgs {
  ContainerID : string;
  Netns : string;
  IfName : string;
  Args : string;
  PluginPath : string;
  StdinData : option json
}.

(* ===================================================================== *)
(** * Calls on the collaborators *)
(* ===================================================================== *)

(** One call the plugin makes, with what came back. *)
Inductive Event : Type :=
| NewOVSSwitch_ (name : string) (out : error + OVSSwitch)
| addPort_ (br : OVSSwitch) (ifName : string) (out : option error)
| GetNS_ (nspath : string) (out : option error)
| Do_ (netns : NetNS) (out : error + NetNS)
    (* entering the namespace for [netns.Do]; [inr hostNS] runs the closure *)
| SetupVeth_ (hostNS : NetNS) (ifName : string) (mtu : Z)
             (out : error + (net.Interface * net.Interface))
| NewResultFromResult_ (out : error + current.Result)
| InterfaceByName_ (name : string) (out : option error)
| PrintResult_ (result : current.Result) (version : string) (out : option error)
| Close_ (netns : NetNS).

Definition Log : Type := list Event.

(** The collaborators.  Each answer may depend on every call made so far, so
    a [Host] stands for any deterministic switch daemon and kernel. *)
Record Host : Type := mkHost {
  ovs_NewOVSSwitch : Log -> string -> error + OVSSwitch;
  ovs_addPort : Log -> OVSSwitch -> string -> option error;
  ns_GetNS : Log -> string -> option error;
  ns_enter : Log -> NetNS -> error + NetNS;
  ip_SetupVeth : Log -> NetNS -> string -> Z -> error + (net.Interface * net.Interface);
  current_NewResultFromResult : Log -> error + current.Result;
  net_InterfaceByName : Log -> string -> option error;
  types_PrintResult : Log -> current.Result -> string -> option error
}.

(* ===================================================================== *)
(** * The monad of the plugin's functions *)
(* ===================================================================== *)

(** A computation extends the log and ends with an error or a value. *)
Definition M (A : Type) : Type := Log -> (error + A) * Log.

Definition ret {A : Type} (a : A) : M A := fun log => (inr a, log).

Definition fail {A : Type} (err : error) : M A := fun log => (inl err, log).

Definition bind {A B : Type} (m : M A) (k : A -> M B) : M B :=
  fun log =>
    match m log with
    | (inl err, log') => (inl err, log')
    | (inr a, log') => k a log'
    end.

(** [fmt.Errorf] around the error of a failed step. *)
Definition wrapErr {A : Type} (w : error -> error) (m : M A) : M A :=
  fun log =>
    match m log with
    | (inl err, log') => (inl (w err), log')
    | ok => ok
    end.

(** A call that returns a value or an error. *)
Definition call {A : Type} (ask : Log -> error + A) (ev : error + A -> Event) : M A :=
  fun log => let out := ask log in (out, log ++ [ev out]).

(** A call that returns only an error, [nil] or not. *)
Definition callErr (ask : Log -> option error) (ev : option error -> Event) : M unit :=
  fun log =>
    let out := ask log in
    (match out with Some err => inl err | None => inr tt end, log ++ [ev out]).

(** [defer netns.Close()]: runs when the body returns, on every path; the
    error of [Close] is dropped. *)
Definition deferClose {A : Type} (netns : NetNS) (body : M A) : M A :=
  fun log => let (r, log') := body log in (r, log' ++ [Close_ netns]).

(** A request is served by a fresh process: the log starts empty. *)
Definition exec {A : Type} (m : M A) : (error + A) * Log := m [].

Declare Scope plugin_scope.
Delimit Scope plugin_scope with plugin.
Notation "x <- m ;; k" := (bind m (fun x => k))
  (at level 61, m at next level, right associativity) : plugin_scope.
Notation "' pat <- m ;; k" := (bind m (fun x => match x with pat => k end))
  (at level 61, pat pattern, m at next level, right associativity) : plugin_scope.
Local Open Scope plugin_scope.

(* ===================================================================== *)
(** * The plugin *)
(* ===================================================================== *)

Section Plugin.
Context {T : TypesNetConf}.
Variable H : Host.

(** [NewOVSSwitch(name)] of the switch client. *)
Definition NewOVSSwitch (name : string) : M OVSSwitch :=
  call (fun log => ovs_NewOVSSwitch H log name) (NewOVSSwitch_ name).

(** [br.addPort(ifName)] of the switch client. *)
Definition addPort (br : OVSSwitch) (ifName : string) : M unit :=
  callErr (fun log => ovs_addPort H log br ifName) (addPort_ br ifName).

(** [ns.GetNS(nspath)] *)
Definition GetNS (nspath : string) : M NetNS :=
  _ <- callErr (fun log => ns_GetNS H log nspath) (GetNS_ nspath) ;;
  ret (mkNetNS nspath).

(** [netns.Do(toRun)]: the namespace is entered and [toRun] is run there with
    the handle of the host namespace, and what it returns is returned; when
    the namespace cannot be entered [toRun] is not run. *)
Definition Do {A : Type} (netns : NetNS) (toRun : NetNS -> M A) : M A :=
  hostNS <- call (fun log => ns_enter H log netns) (Do_ netns) ;;
  toRun hostNS.

(** [ip.SetupVeth(ifName, mtu, hostNS)]: the host end and the container end. *)
Definition SetupVeth (ifName : string) (mtu : Z) (hostNS : NetNS)
  : M (net.Interface * net.Interface) :=
  call (fun log => ip_SetupVeth H log hostNS ifName mtu) (SetupVeth_ hostNS ifName mtu).

(** [current.NewResultFromResult(nil)] *)
Definition NewResultFromResult : M current.Result :=
  call (current_NewResultFromResult H) NewResultFromResult_.

(** [net.InterfaceByName(name)]; the interface it finds is not used. *)
Definition InterfaceByName (name : string) : M unit :=
  callErr (fun log => net_InterfaceByName H log name) (InterfaceByName_ name).

(** [types.PrintResult(result, version)] *)
Definition PrintResult (result : current.Result) (version : string) : M unit :=
  callErr (fun log => types_PrintResult H log result version)
          (PrintResult_ result version).

(** [func setupVeth(netns ns.NetNS, br *OVSSwitch, ifName string, mtu int)].
    The closure fills the two descriptors declared before it; they are read
    only when it returned [nil], so it is written as returning them. *)
Definition setupVeth (netns : NetNS) (br : OVSSwitch) (ifName : string) (mtu : Z)
  : M (current.Interface * current.Interface) :=
  let contIface := current.mkInterface EmptyString EmptyString EmptyString in
  let hostIface := current.mkInterface EmptyString EmptyString EmptyString in
  '(hostIface, contIface) <-
    Do netns (fun hostNS =>
      (* create the veth pair in the container and move host end into host netns *)
      '(hostVeth, containerVeth) <- SetupVeth ifName mtu hostNS ;;
      ret (current.mkInterface (net.Name hostVeth)
                               (current.Mac hostIface) (current.Sandbox hostIface),
           current.mkInterface (net.Name containerVeth)
                               (net.HardwareAddr_String (net.HardwareAddr containerVeth))
                               (Path netns))) ;;
  (* connect host veth end to the bridge *)
  _ <- wrapErr (FailedToConnect (current.Name hostIface) (bridgeName br))
               (addPort br (current.Name contIface)) ;;
  ret (hostIface, contIface).

(** [func setupBridge(n *NetConf)] *)
Definition setupBridge (n : NetConf) : M (OVSSwitch * current.Interface) :=
  (* create bridge if necessary *)
  ovs <- wrapErr (FailedToCreateBridge (BrName n)) (NewOVSSwitch (BrName n)) ;;
  ret (ovs, current.mkInterface (BrName n) EmptyString EmptyString).

(** [func cmdAdd(args *skel.CmdArgs) error] *)
Definition cmdAdd (args : CmdArgs) : M unit :=
  match loadNetConf (StdinData args) with
  | inl err => fail err
  | inr (n, cniVersion) =>
      '(br, brInterface) <- setupBridge n ;;
      _ <- addPort br (PNIC n) ;;
      netns <- wrapErr (FailedToOpenNetns (Netns args)) (GetNS (Netns args)) ;;
      deferClose netns (
        result <- NewResultFromResult ;;
        '(hostInterface, containerInterface) <-
          setupVeth netns br (IfName args) (MTU n) ;;
        (* result.Interfaces = ..., the one field a [current.Result] has here *)
        let result :=
          current.mkResult [brInterface; hostInterface; containerInterface] in
        _ <- Do netns (fun _ => InterfaceByName (IfName args)) ;;
        PrintResult result cniVersion)
  end.

(** [func cmdDel(args *skel.CmdArgs) error].  The last [return err] is
    reached with [err] equal to [nil]. *)
Definition cmdDel (args : CmdArgs) : M unit :=
  match loadNetConf (StdinData args) with
  | inl err => fail err
  | inr (n, _) =>
      if (Netns args =? EmptyString)%string then ret tt
      else ret tt
  end.

End Plugin.

(* ===================================================================== *)
(** * Concrete requests and hosts *)
(* ===================================================================== *)

(** A [types.NetConf] reduced to its [cniVersion] field, for running the
    plugin on concrete requests. *)
#[export] Instance versionOnly : TypesNetConf := {|
  types_NetConf := string;
  types_zero := EmptyString;
  CNIVersion := fun e => e;
  types_field := fun key =>
    if (key =? "cniVersion")%string then Some decodeString else None
|}.

(** The request of the end-to-end scenario: namespace [/proc/1234/ns/net],
    interface [eth0], bridge [ovsbr0], MTU 1500, uplink [eth1]. *)
Definition scenarioConf : json :=
  JObject [("cniVersion", JString "0.3.1"); ("bridge", JString "ovsbr0");
           ("mtu", JInt 1500); ("pNIC", JString "eth1")].

Definition scenarioArgs : CmdArgs :=
  mkCmdArgs "c0ffee" "/proc/1234/ns/net" "eth0" EmptyString "/opt/cni/bin"
            (Some scenarioConf).

Definition hostVethOf (mtu : Z) : net.Interface :=
  net.mkInterface 7 mtu "veth1a2b3c4d"
    [Byte.x0a; Byte.x58; Byte.x0a; Byte.x01; Byte.x00; Byte.x02] 0.

Definition containerVethOf (ifName : string) (mtu : Z) : net.Interface :=
  net.mkInterface 3 mtu ifName
    [Byte.x0a; Byte.x58; Byte.x0a; Byte.x01; Byte.x00; Byte.x03] 0.

Definition scenarioNetConf : @NetConf versionOnly :=
  @mkNetConf versionOnly "0.3.1" "ovsbr0" 1500 "eth1".

(** A host on which the call number [k] of the request (counted from 0)
    fails and every other call succeeds. *)
Definition failing (k : nat) (log : Log) : option error :=
  if (length log =? k)%nat then Some (Foreign "injected") else None.

Definition failingWith {A : Type} (k : nat) (log : Log) (a : A) : error + A :=
  if (length log =? k)%nat then inl (Foreign "injected") else inr a.

Definition hostFailingAt (k : nat) : Host := {|
  ovs_NewOVSSwitch := fun log name => failingWith k log (mkOVSSwitch name);
  ovs_addPort := fun log _ _ => failing k log;
  ns_GetNS := fun log _ => failing k log;
  ns_enter := fun log _ => failingWith k log (mkNetNS "/proc/self/ns/net");
  ip_SetupVeth := fun log _ ifName mtu =>
    failingWith k log (hostVethOf mtu, containerVethOf ifName mtu);
  current_NewResultFromResult := fun log => failingWith k log (current.mkResult []);
  net_InterfaceByName := fun log _ => failing k log;
  types_PrintResult := fun log _ _ => failing k log
|}.

(** The request has eleven calls, so call 11 never comes. *)
Definition healthyHost : Host := hostFailingAt 11.

(** A host on which every call succeeds and the veth factory reports a
    container end that has no hardware address. *)
Definition addresslessHost : Host := {|
  ovs_NewOVSSwitch := ovs_NewOVSSwitch healthyHost;
  ovs_addPort := ovs_addPort healthyHost;
  ns_GetNS := ns_GetNS healthyHost;
  ns_enter := ns_enter healthyHost;
  ip_SetupVeth := fun _ _ ifName mtu =>
    inr (hostVethOf mtu, net.mkInterface 3 mtu ifName [] 0);
  current_NewResultFromResult := current_NewResultFromResult healthyHost;
  net_InterfaceByName := net_InterfaceByName healthyHost;
  types_PrintResult := types_PrintResult healthyHost
|}.

(** The host that answers as a given log says: the answer to the call made
    after [history] is read off the event at that position of [log]. *)
Definition replayHost (log : Log) : Host := {|
  ovs_NewOVSSwitch := fun history _ =>
    match nth_error log (length history) with
    | Some (NewOVSSwitch_ _ out) => out
    | _ => inl (Foreign "unexpected call")
    end;
  ovs_addPort := fun history _ _ =>
    match nth_error log (length history) with
    | Some (addPort_ _ _ out) => out
    | _ => Some (Foreign "unexpected call")
    end;
  ns_GetNS := fun history _ =>
    match nth_error log (length history) with
    | Some (GetNS_ _ out) => out
    | _ => Some (Foreign "unexpected call")
    end;
  ns_enter := fun history _ =>
    match nth_error log (length history) with
    | Some (Do_ _ out) => out
    | _ => inl (Foreign "unexpected call")
    end;
  ip_SetupVeth := fun history _ _ _ =>
    match nth_error log (length history) with
    | Some (SetupVeth_ _ _ _ out) => out
    | _ => inl (Foreign "unexpected call")
    end;
  current_NewResultFromResult := fun history =>
    match nth_error log (length history) with
    | Some (NewResultFromResult_ out) => out
    | _ => inl (Foreign "unexpected call")
    end;
  net_InterfaceByName := fun history _ =>
    match nth_error log (length history) with
    | Some (InterfaceByName_ _ out) => out
    | _ => Some (Foreign "unexpected call")
    end;
  types_PrintResult := fun history _ _ =>
    match nth_error log (length history) with
    | Some (PrintResult_ _ _ out) => out
    | _ => Some (Foreign "unexpected call")
    end
|}.

(* ===================================================================== *)
(** * What is observed of a request and of its calls *)
(* ===================================================================== *)

(** The members of the request's top-level object; a request that is not an
    object has none. *)
Definition membersOf (bytes : option json) : list (string * json) :=
  match bytes with
  | Some (JObject members) => members
  | _ => []
  end.

(** The member key addresses the [bridge] field of [NetConf]. *)
Definition namesBridge (key : string) : bool := simpleLetterEqualFold "bridge" key.

(** What is observed of a call log. *)

Definition isSwitchCall (e : Event) : bool :=
  match e with
  | NewOVSSwitch_ _ _ | addPort_ _ _ _ => true
  | _ => false
  end.

(** The calls that need the target namespace or act inside it. *)
Definition isNamespaceWork (e : Event) : bool :=
  match e with
  | GetNS_ _ _ | Do_ _ _ | SetupVeth_ _ _ _ _ | InterfaceByName_ _ _ | Close_ _ => true
  | _ => false
  end.

(** A result reached the caller: [types.PrintResult] returned [nil]. *)
Definition printed (log : Log) : Prop :=
  exists result version, In (PrintResult_ result version None) log.

(** The veth pairs in place after the calls of a log: [ip.SetupVeth] makes
    one pair when it succeeds, and no call the plugin can make takes an
    interface away. *)
Fixpoint cablesLeft (log : Log) : list (net.Interface * net.Interface) :=
  match log with
  | [] => []
  | SetupVeth_ _ _ _ (inr cable) :: rest => cable :: cablesLeft rest
  | _ :: rest => cablesLeft rest
  end.

Section Runs.
Context {T : TypesNetConf}.
Variable args : CmdArgs.

(** The handle of the target namespace. *)
Local Abbreviation netns := (mkNetNS (Netns args)).

(** The calls of an attachment that went as far as the open namespace. *)
Definition uplinkLog (n : NetConf) (br : OVSSwitch) : Log :=
  [NewOVSSwitch_ (BrName n) (inr br); addPort_ br (PNIC n) None].

Definition openedLog (n : NetConf) (br : OVSSwitch) (r0 : current.Result) : Log :=
  uplinkLog n br ++ [GetNS_ (Netns args) None; NewResultFromResult_ (inr r0)].

(** ... as far as the veth pair. *)
Definition cableLog (n : NetConf) br r0 (hostNS : NetNS) (h c : net.Interface) : Log :=
  openedLog n br r0
  ++ [Do_ netns (inr hostNS); SetupVeth_ hostNS (IfName args) (MTU n) (inr (h, c))].

(** ... as far as the attached port. *)
Definition attachedLog (n : NetConf) br r0 hostNS (h c : net.Interface) : Log :=
  cableLog n br r0 hostNS h c ++ [addPort_ br (net.Name c) None].

(** The result assembled by [cmdAdd]. *)
Definition topology (n : NetConf) (h c : net.Interface) : current.Result :=
  current.mkResult
    [current.mkInterface (BrName n) EmptyString EmptyString;
     current.mkInterface (net.Name h) EmptyString EmptyString;
     current.mkInterface (net.Name c)
       (net.HardwareAddr_String (net.HardwareAddr c)) (Netns args)].

(** Every way an attachment can go: what [cmdAdd] returns and the calls it
    made, one constructor per exit of the function. *)
Inductive AddRun : error + unit -> Log -> Prop :=
| ConfigRejected err :
    loadNetConf (StdinData args) = inl err ->
    AddRun (inl err) []
| SwitchFailed n version e :
    loadNetConf (StdinData args) = inr (n, version) ->
    AddRun (inl (FailedToCreateBridge (BrName n) e))
           [NewOVSSwitch_ (BrName n) (inl e)]
| UplinkFailed n version br e :
    loadNetConf (StdinData args) = inr (n, version) ->
    AddRun (inl e)
           [NewOVSSwitch_ (BrName n) (inr br); addPort_ br (PNIC n) (Some e)]
| NetnsFailed n version br e :
    loadNetConf (StdinData args) = inr (n, version) ->
    AddRun (inl (FailedToOpenNetns (Netns args) e))
           (uplinkLog n br ++ [GetNS_ (Netns args) (Some e)])
| ResultFailed n version br e :
    loadNetConf (StdinData args) = inr (n, version) ->
    AddRun (inl e)
           (uplinkLog n br
            ++ [GetNS_ (Netns args) None; NewResultFromResult_ (inl e); Close_ netns])
| EnterFailed n version br r0 e :
    loadNetConf (StdinData args) = inr (n, version) ->
    AddRun (inl e)
           (openedLog n br r0 ++ [Do_ netns (inl e); Close_ netns])
| CableFailed n version br r0 hostNS e :
    loadNetConf (StdinData args) = inr (n, version) ->
    AddRun (inl e)
           (openedLog n br r0
            ++ [Do_ netns (inr hostNS);
                SetupVeth_ hostNS (IfName args) (MTU n) (inl e); Close_ netns])
| AttachFailed n version br r0 hostNS h c e :
    loadNetConf (StdinData args) = inr (n, version) ->
    AddRun (inl (FailedToConnect (net.Name h) (bridgeName br) e))
           (cableLog n br r0 hostNS h c
            ++ [addPort_ br (net.Name c) (Some e); Close_ netns])
| ReenterFailed n version br r0 hostNS h c e :
    loadNetConf (StdinData args) = inr (n, version) ->
    AddRun (inl e)
           (attachedLog n br r0 hostNS h c ++ [Do_ netns (inl e); Close_ netns])
| LookupFailed n version br r0 hostNS h c hostNS' e :
    loadNetConf (StdinData args) = inr (n, version) ->
    AddRun (inl e)
           (attachedLog n br r0 hostNS h c
            ++ [Do_ netns (inr hostNS'); InterfaceByName_ (IfName args) (Some e);
                Close_ netns])
| PrintFailed n version br r0 hostNS h c hostNS' e :
    loadNetConf (StdinData args) = inr (n, version) ->
    AddRun (inl e)
           (attachedLog n br r0 hostNS h c
            ++ [Do_ netns (inr hostNS'); InterfaceByName_ (IfName args) None;
                PrintResult_ (topology n h c) version (Some e); Close_ netns])
| Attached n version br r0 hostNS h c hostNS' :
    loadNetConf (StdinData args) = inr (n, version) ->
    AddRun (inr tt)
           (attachedLog n br r0 hostNS h c
            ++ [Do_ netns (inr hostNS'); InterfaceByName_ (IfName args) None;
                PrintResult_ (topology n h c) version None; Close_ netns]).

End Runs.

(** The seven steps of an attachment all succeeded: the configuration was
    loaded and the log shows, in this order, the switch made, the uplink
    attached, the namespace opened, the veth pair made, the port attached
    after it, and the interface found inside the namespace. *)
Definition stepsSucceeded {T : TypesNetConf} (args : CmdArgs) (log : Log) : Prop :=
  exists n version br hostNS h c port pre mid post,
    loadNetConf (StdinData args) = inr (n, version)
    /\ log = NewOVSSwitch_ (BrName n) (inr br)
             :: addPort_ br (PNIC n) None
             :: GetNS_ (Netns args) None
             :: pre ++ SetupVeth_ hostNS (IfName args) (MTU n) (inr (h, c))
                    :: addPort_ br port None
                    :: mid ++ InterfaceByName_ (IfName args) None :: post.

(* ===================================================================== *)
(** * The scenario of the specification *)
(* ===================================================================== *)

Definition scenarioNetns : NetNS := mkNetNS "/proc/1234/ns/net".
Definition scenarioHostNS : NetNS := mkNetNS "/proc/self/ns/net".
Definition scenarioSwitch : OVSSwitch := mkOVSSwitch "ovsbr0".

Definition scenarioResult : current.Result :=
  current.mkResult
    [current.mkInterface "ovsbr0" EmptyString EmptyString;
     current.mkInterface "veth1a2b3c4d" EmptyString EmptyString;
     current.mkInterface "eth0" "0a:58:0a:01:00:03" "/proc/1234/ns/net"].

(** The calls up to the veth pair, the same on every host below. *)
Definition scenarioCableLog : Log :=
  [NewOVSSwitch_ "ovsbr0" (inr scenarioSwitch);
   addPort_ scenarioSwitch "eth1" None;
   GetNS_ "/proc/1234/ns/net" None;
   NewResultFromResult_ (inr (current.mkResult []));
   Do_ scenarioNetns (inr scenarioHostNS);
   SetupVeth_ scenarioHostNS "eth0" 1500
     (inr (hostVethOf 1500, containerVethOf "eth0" 1500))].

Definition scenarioLog : Log :=
  scenarioCableLog
  ++ [addPort_ scenarioSwitch "eth0" None;
      Do_ scenarioNetns (inr scenarioHostNS);
      InterfaceByName_ "eth0" None;
      PrintResult_ scenarioResult "0.3.1" None;
      Close_ scenarioNetns].

Definition attachFailedLog : Log :=
  scenarioCableLog
  ++ [addPort_ scenarioSwitch "eth0" (Some (Foreign "injected"));
      Close_ scenarioNetns].

Definition printFailedLog : Log :=
  scenarioCableLog
  ++ [addPort_ scenarioSwitch "eth0" None;
      Do_ scenarioNetns (inr scenarioHostNS);
      InterfaceByName_ "eth0" None;
      PrintResult_ scenarioResult "0.3.1" (Some (Foreign "injected"));
      Close_ scenarioNetns].

(** A teardown request with an empty namespace path whose [mtu] is a string. *)
Definition badMtuArgs : CmdArgs :=
  mkCmdArgs "c0ffee" EmptyString "eth0" EmptyString "/opt/cni/bin"
            (Some (JObject [("mtu", JString "jumbo")])).

(* ===================================================================== *)
(** * Further observations *)
(* ===================================================================== *)

(** The member key addresses the [mtu] field, the [pNIC] field. *)
Definition namesMtu (key : string) : bool := simpleLetterEqualFold "mtu" key.

Definition namesPNIC (key : string) : bool := simpleLetterEqualFold "pNIC" key.

(** The call came back with an error. *)
Definition failed (e : Event) : bool :=
  match e with
  | NewOVSSwitch_ _ (inl _) | addPort_ _ _ (Some _) | GetNS_ _ (Some _)
  | Do_ _ (inl _) | SetupVeth_ _ _ _ (inl _) | NewResultFromResult_ (inl _)
  | InterfaceByName_ _ (Some _) | PrintResult_ _ _ (Some _) => true
  | _ => false
  end.

(** Which function a call is a call of. *)
Inductive Kind : Type :=
| KNewOVSSwitch | KaddPort | KGetNS | KNewResultFromResult | KDo | KSetupVeth
| KInterfaceByName | KPrintResult | KClose.

Definition kindOf (e : Event) : Kind :=
  match e with
  | NewOVSSwitch_ _ _ => KNewOVSSwitch
  | addPort_ _ _ _ => KaddPort
  | GetNS_ _ _ => KGetNS
  | Do_ _ _ => KDo
  | SetupVeth_ _ _ _ _ => KSetupVeth
  | NewResultFromResult_ _ => KNewResultFromResult
  | InterfaceByName_ _ _ => KInterfaceByName
  | PrintResult_ _ _ _ => KPrintResult
  | Close_ _ => KClose
  end.

(** The calls of [cmdAdd] in the order of its text, the deferred [Close]
    apart. *)
Definition plan : list Kind :=
  [KNewOVSSwitch; KaddPort; KGetNS; KNewResultFromResult; KDo; KSetupVeth;
   KaddPort; KDo; KInterfaceByName; KPrintResult].

(** The call carries the values of the request [args] and of its
    configuration [n], [version], where the call has such an argument. *)
Definition carriesRequest {T : TypesNetConf} (args : CmdArgs) (n : NetConf)
    (version : string) (e : Event) : Prop :=
  match e with
  | NewOVSSwitch_ name _ => name = BrName n
  | GetNS_ nspath _ => nspath = Netns args
  | Do_ netns _ => netns = mkNetNS (Netns args)
  | SetupVeth_ _ ifName mtu _ => ifName = IfName args /\ mtu = MTU n
  | InterfaceByName_ name _ => name = IfName args
  | PrintResult_ _ v _ => v = version
  | Close_ netns => netns = mkNetNS (Netns args)
  | addPort_ _ _ _ | NewResultFromResult_ _ => True
  end.

(** The value of a hex digit of [hexDigit], to read a formatted byte back. *)
Definition hexValue (c : ascii) : N :=
  match index 0 (String c EmptyString) "0123456789abcdef" with
  | Some i => N.of_nat i
  | None => 0
  end.

(** A request whose configuration names no uplink. *)
Definition noUplinkArgs : CmdArgs :=
  mkCmdArgs "c0ffee" "/proc/1234/ns/net" "eth0" EmptyString "/opt/cni/bin"
            (Some (JObject [("cniVersion", JString "0.3.1"); ("mtu", JInt 1500)])).

(* ===================================================================== *)
(** * Proof tactics *)
(* ===================================================================== *)

Ltac unfold_plugin :=
  unfold exec, cmdAdd, setupBridge, setupVeth, Do, NewOVSSwitch, addPort, GetNS,
    SetupVeth, NewResultFromResult, InterfaceByName, PrintResult, deferClose,
    wrapErr, bind, call, callErr, ret, fail.

Ltac finish_run Hload :=
  intros [= <- <-]; econstructor; exact Hload.

(** Finds where a known log can be cut as [pre ++ e :: post]: one goal per
    position whose event can be [e], with the equations for [e] and [post]
    as hypotheses. *)
Ltac split_log Hs :=
  simpl in Hs;
  lazymatch type of Hs with
  | [] = ?pre ++ _ :: _ => destruct pre; discriminate Hs
  | _ :: _ = ?pre ++ _ :: _ =>
      let x := fresh "ev" in
      let pre' := fresh "pre" in
      let Hhd := fresh "Hhd" in
      let Htl := fresh "Htl" in
      destruct pre as [|x pre']; simpl in Hs;
      lazymatch type of Hs with
      | ?a :: _ = _ => pose proof (f_equal (hd a) Hs) as Hhd
      end;
      apply (f_equal (@tl Event)) in Hs; simpl in Hhd, Hs;
      [ rename Hs into Htl; try discriminate Hhd
      | subst x; split_log Hs ]
  end.

Ltac unfold_logs :=
  unfold attachedLog, cableLog, openedLog, uplinkLog, topology in *.

(** Decides membership questions on a known log. *)
Ltac in_log Hin :=
  simpl in Hin;
  repeat (destruct Hin as [Hin|Hin]; [try discriminate Hin|]);
  try (destruct Hin).

(** Reads the equations left by [split_log] for a cut at a successful
    [ip.SetupVeth] followed by an add-port call. *)
Ltac cut_at_cable :=
  match goal with
  | Hhd : _ = SetupVeth_ _ _ _ _, Htl : _ = addPort_ _ _ _ :: _ |- _ =>
      inversion Hhd; inversion Htl; subst
  end.

(* ===================================================================== *)
(** * Configuration loading *)
(* ===================================================================== *)

Section ConfigurationFacts.
Context {T : TypesNetConf}.

Lemma decodeMember_other_key key v (n n' : NetConf) :
  namesBridge key = false ->
  decodeMember key v n = Some n' ->
  BrName n' = BrName n.
Proof.
  unfold namesBridge, decodeMember. intros ->.
  destruct (simpleLetterEqualFold "mtu" key).
  - destruct (decodeInt v (MTU n)); simpl; intros [= <-]; reflexivity.
  - destruct (simpleLetterEqualFold "pNIC" key).
    + destruct (decodeString v (PNIC n)); simpl; intros [= <-]; reflexivity.
    + destruct (types_field key) as [dec|].
      * destruct (dec v (embedded n)); simpl; intros [= <-]; reflexivity.
      * intros [= <-]; reflexivity.
Qed.

Lemma decodeMember_bridge_key key v (n n' : NetConf) :
  namesBridge key = true ->
  decodeMember key v n = Some n' ->
  decodeString v (BrName n) = Some (BrName n').
Proof.
  unfold namesBridge, decodeMember. intros ->.
  destruct (decodeString v (BrName n)); simpl; intros [= <-]; reflexivity.
Qed.

Lemma decodeObject_app pre post (n : NetConf) :
  decodeObject (pre ++ post) n =
  match decodeObject pre n with
  | inl err => inl err
  | inr n1 => decodeObject post n1
  end.
Proof.
  revert n. induction pre as [|[key v] pre IH]; intros n; simpl.
  - reflexivity.
  - destruct (decodeMember key v n); [apply IH | reflexivity].
Qed.

Lemma decodeObject_without_bridge members (n n' : NetConf) :
  (forall k v, In (k, v) members -> namesBridge k = false) ->
  decodeObject members n = inr n' ->
  BrName n' = BrName n.
Proof.
  revert n. induction members as [|[key v] rest IH]; intros n Hno; simpl.
  - intros [= <-]; reflexivity.
  - destruct (decodeMember key v n) as [n1|] eqn:E; [|discriminate].
    intros Hrest. rewrite (IH n1).
    + apply (decodeMember_other_key key v); [apply (Hno key v); left|]; auto.
    + intros k w Hin. apply (Hno k w). right; exact Hin.
    + exact Hrest.
Qed.

(** The bridge name stays non-empty as long as no member stores the empty
    string in it. *)
Lemma decodeObject_nonempty members (n n' : NetConf) :
  (forall k, namesBridge k = true -> ~ In (k, JString EmptyString) members) ->
  BrName n <> EmptyString ->
  decodeObject members n = inr n' ->
  BrName n' <> EmptyString.
Proof.
  revert n. induction members as [|[key v] rest IH]; intros n Hno Hn; simpl.
  - intros [= <-]; exact Hn.
  - destruct (decodeMember key v n) as [n1|] eqn:E; [|discriminate].
    apply IH.
    + intros k Hk Hin. apply (Hno k Hk). right; exact Hin.
    + destruct (namesBridge key) eqn:Hkey.
      * pose proof (decodeMember_bridge_key key v n n1 Hkey E) as Hs.
        destruct v; simpl in Hs; try discriminate.
        -- injection Hs as <-. exact Hn.
        -- injection Hs as <-. intros ->. apply (Hno key Hkey). left; reflexivity.
      * rewrite (decodeMember_other_key key v n n1 Hkey E). exact Hn.
Qed.

Lemma loadNetConf_accepts bytes (n : NetConf) version :
  loadNetConf bytes = inr (n, version) ->
  decodeObject (membersOf bytes) (mkNetConf types_zero defaultBrName 0 EmptyString)
  = inr n.
Proof.
  unfold loadNetConf, Unmarshal.
  destruct bytes as [[| | | | | |members]|]; simpl; try discriminate.
  - intros [= <- _]; reflexivity.
  - destruct (decodeObject members _); [discriminate|].
    intros [= <- _]; reflexivity.
Qed.

(** When the bridge name comes out empty: it was empty and no member set
    it, or the last member that set it stores the empty string. *)
Lemma decodeObject_bridge_empty members (n n' : NetConf) :
  decodeObject members n = inr n' ->
  (BrName n' = EmptyString <->
   (BrName n = EmptyString
    /\ forall k v, In (k, v) members -> namesBridge k = true -> v = JNull)
   \/ exists pre k post,
        members = pre ++ (k, JString EmptyString) :: post
        /\ namesBridge k = true
        /\ forall k' v', In (k', v') post -> namesBridge k' = true -> v' = JNull).
Proof.
  revert n. induction members as [|[key v] rest IH]; intros n; simpl.
  - intros [= <-]. split.
    + intros Hb. left. split; [exact Hb | intros k v []].
    + intros [[Hb _]|(pre & k & post & Hs & _)]; [exact Hb|].
      destruct pre; discriminate Hs.
  - destruct (decodeMember key v n) as [n1|] eqn:E; [|discriminate].
    intros Hrest. rewrite (IH n1 Hrest). clear IH Hrest.
    assert (Hlater : forall pre k post,
               rest = pre ++ (k, JString EmptyString) :: post ->
               (key, v) :: rest = ((key, v) :: pre) ++ (k, JString EmptyString) :: post)
      by (intros pre k post ->; reflexivity).
    destruct (namesBridge key) eqn:Hkey.
    + pose proof (decodeMember_bridge_key key v n n1 Hkey E) as Hs.
      destruct v; simpl in Hs; try discriminate Hs; injection Hs as Hs.
      * (* null: the name is kept *)
        split.
        -- intros [[Hb Hq]|(pre & k & post & Hsplit & Hk & Hq)].
           ++ left. split; [congruence|].
              intros k0 v0 [[= <- <-]|Hin] Hn; [reflexivity | apply (Hq k0 v0 Hin Hn)].
           ++ right. exists ((key, JNull) :: pre), k, post.
              split; [apply Hlater, Hsplit | split; assumption].
        -- intros [[Hb Hq]|(pre & k & post & Hsplit & Hk & Hq)].
           ++ left. split; [congruence|].
              intros k0 v0 Hin Hn. apply (Hq k0 v0 (or_intror Hin) Hn).
           ++ destruct pre as [|x pre]; simpl in Hsplit; [discriminate Hsplit|].
              injection Hsplit as _ Hsplit. right. exists pre, k, post.
              split; [exact Hsplit | split; assumption].
      * (* a string: it is the name *)
        split.
        -- intros [[Hb Hq]|(pre & k & post & Hsplit & Hk & Hq)].
           ++ right. exists [], key, rest.
              split; [simpl; congruence | split; assumption].
           ++ right. exists ((key, JString s) :: pre), k, post.
              split; [apply Hlater, Hsplit | split; assumption].
        -- intros [[Hb Hq]|(pre & k & post & Hsplit & Hk & Hq)].
           ++ exfalso.
              pose proof (Hq key (JString s) (or_introl eq_refl) Hkey) as Hnull.
              discriminate Hnull.
           ++ destruct pre as [|x pre]; simpl in Hsplit.
              ** injection Hsplit as _ Hempty Hpost. subst post.
                 left. split; [congruence | exact Hq].
              ** injection Hsplit as _ Hsplit. right. exists pre, k, post.
                 split; [exact Hsplit | split; assumption].
    + pose proof (decodeMember_other_key key v n n1 Hkey E) as Hs.
      split.
      * intros [[Hb Hq]|(pre & k & post & Hsplit & Hk & Hq)].
        -- left. split; [congruence|].
           intros k0 v0 [[= <- <-]|Hin] Hn; [congruence | apply (Hq k0 v0 Hin Hn)].
        -- right. exists ((key, v) :: pre), k, post.
           split; [apply Hlater, Hsplit | split; assumption].
      * intros [[Hb Hq]|(pre & k & post & Hsplit & Hk & Hq)].
        -- left. split; [congruence|].
           intros k0 v0 Hin Hn. apply (Hq k0 v0 (or_intror Hin) Hn).
        -- destruct pre as [|x pre]; simpl in Hsplit.
           ++ injection Hsplit as Hkk _ _. congruence.
           ++ injection Hsplit as _ Hsplit. right. exists pre, k, post.
              split; [exact Hsplit | split; assumption].
Qed.

End ConfigurationFacts.

(** C8.  When the loader accepts a configuration, the switch name is the
    default [ovsbr0] if no member of the configuration names the bridge, and
    it is the supplied string if a member does (the last one, should the
    document repeat the key). *)
Theorem loadNetConf_bridge_name {T : TypesNetConf} bytes (n : NetConf) version :
  loadNetConf bytes = inr (n, version) ->
  ((forall k v, In (k, v) (membersOf bytes) -> namesBridge k = false) ->
   BrName n = "ovsbr0")
  /\
  (forall pre k s post,
     membersOf bytes = pre ++ (k, JString s) :: post ->
     namesBridge k = true ->
     (forall k' v', In (k', v') post -> namesBridge k' = false) ->
     BrName n = s).
Proof.
  intros Hload. apply loadNetConf_accepts in Hload. split.
  - intros Hno.
    apply (decodeObject_without_bridge _ _ _ Hno Hload).
  - intros pre k s post Hsplit Hk Hpost.
    rewrite Hsplit, decodeObject_app in Hload.
    destruct (decodeObject pre _) as [|n1]; [discriminate|].
    simpl in Hload.
    destruct (decodeMember k (JString s) n1) as [n2|] eqn:E; [|discriminate].
    apply decodeMember_bridge_key in E; [|exact Hk].
    simpl in E. injection E as E.
    rewrite (decodeObject_without_bridge _ _ _ Hpost Hload). symmetry; exact E.
Qed.

Lemma loadNetConf_bridge_name_witness :
  (loadNetConf (Some scenarioConf) = inr (scenarioNetConf, "0.3.1")
   /\ BrName scenarioNetConf = "ovsbr0")
  /\ (loadNetConf (Some (JObject [("pNIC", JString "eth1")]))
      = inr (@mkNetConf versionOnly EmptyString "ovsbr0" 0 "eth1", EmptyString)
      /\ BrName (@mkNetConf versionOnly EmptyString "ovsbr0" 0 "eth1") = "ovsbr0")
  /\ (loadNetConf (Some (JObject [("Bridge", JString "br-int"); ("mtu", JInt 9000)]))
      = inr (@mkNetConf versionOnly EmptyString "br-int" 9000 EmptyString, EmptyString)
      /\ BrName (@mkNetConf versionOnly EmptyString "br-int" 9000 EmptyString) = "br-int").
Proof.
  split; [|split]; (split; [reflexivity|]).
  - apply (proj2 (loadNetConf_bridge_name (Some scenarioConf)
                    scenarioNetConf "0.3.1" eq_refl)
                 [("cniVersion", JString "0.3.1")] "bridge" "ovsbr0"
                 [("mtu", JInt 1500); ("pNIC", JString "eth1")]).
    + reflexivity.
    + reflexivity.
    + simpl; intros k' v' [[= <- _]|[[= <- _]|[]]]; reflexivity.
  - apply (proj1 (loadNetConf_bridge_name
                    (Some (JObject [("pNIC", JString "eth1")]))
                    (@mkNetConf versionOnly EmptyString "ovsbr0" 0 "eth1") EmptyString eq_refl)).
    simpl; intros k v [[= <- _]|[]]; reflexivity.
  - apply (proj2 (loadNetConf_bridge_name
                    (Some (JObject [("Bridge", JString "br-int"); ("mtu", JInt 9000)]))
                    (@mkNetConf versionOnly EmptyString "br-int" 9000 EmptyString) EmptyString eq_refl)
                 [] "Bridge" "br-int" [("mtu", JInt 9000)]).
    + reflexivity.
    + reflexivity.
    + simpl; intros k' v' [[= <- _]|[]]; reflexivity.
Defined.

(** C9, as the code has it.  An accepted configuration has an empty switch
    name exactly when the last member that names the bridge with a value
    other than [null] stores the empty string; so the switch name is
    non-empty provided no member of the configuration stores the empty string
    in the bridge field. *)
Theorem loadNetConf_bridge_nonempty {T : TypesNetConf} bytes (n : NetConf) version :
  loadNetConf bytes = inr (n, version) ->
  (BrName n = EmptyString <->
   exists pre k post,
     membersOf bytes = pre ++ (k, JString EmptyString) :: post
     /\ namesBridge k = true
     /\ forall k' v', In (k', v') post -> namesBridge k' = true -> v' = JNull)
  /\ ((forall k, namesBridge k = true ->
                 ~ In (k, JString EmptyString) (membersOf bytes)) ->
      BrName n <> EmptyString).
Proof.
  intros Hload. apply loadNetConf_accepts in Hload. split.
  - rewrite (decodeObject_bridge_empty _ _ _ Hload). split.
    + intros [[Hdefault _]|Hlast]; [discriminate Hdefault | exact Hlast].
    + intros Hlast. right. exact Hlast.
  - intros Hno.
    apply (decodeObject_nonempty _ _ _ Hno) in Hload; [exact Hload|].
    discriminate.
Qed.

Lemma loadNetConf_bridge_nonempty_witness :
  loadNetConf (Some scenarioConf) = inr (scenarioNetConf, "0.3.1")
  /\ BrName scenarioNetConf <> EmptyString
  /\ (loadNetConf (Some (JObject [("bridge", JString EmptyString); ("Bridge", JNull)]))
      = inr (@mkNetConf versionOnly EmptyString EmptyString 0 EmptyString, EmptyString)
      /\ BrName (@mkNetConf versionOnly EmptyString EmptyString 0 EmptyString)
         = EmptyString).
Proof.
  split; [reflexivity|]. split.
  - apply (proj2 (loadNetConf_bridge_nonempty (Some scenarioConf) scenarioNetConf
                    "0.3.1" eq_refl)).
    simpl. intros k Hk [E|[E|[E|[E|[]]]]]; discriminate E.
  - split; [reflexivity|].
    apply (proj1 (loadNetConf_bridge_nonempty
                    (Some (JObject [("bridge", JString EmptyString); ("Bridge", JNull)]))
                    (@mkNetConf versionOnly EmptyString EmptyString 0 EmptyString)
                    EmptyString eq_refl)).
    exists [], "bridge", [("Bridge", JNull)].
    split; [reflexivity|]. split; [reflexivity|].
    simpl. intros k' v' [[= <- <-]|[]] _. reflexivity.
Defined.

(** C9, as the claim has it, fails: a configuration whose bridge member is the
    empty string is accepted, and the switch name is empty. *)
Lemma loadNetConf_accepts_empty_bridge :
  exists (n : @NetConf versionOnly) version,
    loadNetConf (Some (JObject [("bridge", JString EmptyString)])) = inr (n, version)
    /\ BrName n = EmptyString.
Proof.
  exists (@mkNetConf versionOnly EmptyString EmptyString 0 EmptyString), EmptyString.
  split; reflexivity.
Qed.

(* ===================================================================== *)
(** * The runs of an attachment *)
(* ===================================================================== *)

(** Whatever the host answers, [cmdAdd] takes one of the twelve runs. *)
Lemma cmdAdd_run {T : TypesNetConf} (H : Host) args r log :
  exec (cmdAdd H args) = (r, log) -> AddRun args r log.
Proof.
  unfold_plugin.
  destruct (loadNetConf (StdinData args)) as [err|[n v]] eqn:Hload.
  { finish_run Hload. }
  simpl.
  destruct (ovs_NewOVSSwitch H _ (BrName n)) as [e|br]; simpl.
  { finish_run Hload. }
  destruct (ovs_addPort H _ br (PNIC n)) as [e|]; simpl.
  { finish_run Hload. }
  destruct (ns_GetNS H _ (Netns args)) as [e|]; simpl.
  { intros [= <- <-]. apply (NetnsFailed args n v br e Hload). }
  destruct (current_NewResultFromResult H _) as [e|r0]; simpl.
  { intros [= <- <-]. apply (ResultFailed args n v br e Hload). }
  destruct (ns_enter H _ _) as [e|hostNS]; simpl.
  { intros [= <- <-]. apply (EnterFailed args n v br r0 e Hload). }
  destruct (ip_SetupVeth H _ _ _ _) as [e|[h c]]; simpl.
  { intros [= <- <-]. apply (CableFailed args n v br r0 hostNS e Hload). }
  destruct (ovs_addPort H _ br (net.Name c)) as [e|]; simpl.
  { intros [= <- <-]. apply (AttachFailed args n v br r0 hostNS h c e Hload). }
  destruct (ns_enter H _ _) as [e|hostNS']; simpl.
  { intros [= <- <-]. apply (ReenterFailed args n v br r0 hostNS h c e Hload). }
  destruct (net_InterfaceByName H _ _) as [e|]; simpl.
  { intros [= <- <-]. apply (LookupFailed args n v br r0 hostNS h c hostNS' e Hload). }
  destruct (types_PrintResult H _ _ _) as [e|]; simpl.
  { intros [= <- <-]. apply (PrintFailed args n v br r0 hostNS h c hostNS' e Hload). }
  intros [= <- <-]. apply (Attached args n v br r0 hostNS h c hostNS' Hload).
Qed.

(** And each of the twelve runs is taken on some host. *)
Lemma cmdAdd_run_taken {T : TypesNetConf} args r log :
  AddRun args r log -> exec (cmdAdd (replayHost log) args) = (r, log).
Proof.
  intros Hrun.
  destruct Hrun as [err Hload|n version e Hload|n version br e Hload
                    |n version br e Hload|n version br e Hload
                    |n version br r0 e Hload|n version br r0 hostNS e Hload
                    |n version br r0 hostNS h c e Hload
                    |n version br r0 hostNS h c e Hload
                    |n version br r0 hostNS h c hostNS' e Hload
                    |n version br r0 hostNS h c hostNS' e Hload
                    |n version br r0 hostNS h c hostNS' Hload];
    unfold exec, cmdAdd; rewrite Hload; reflexivity.
Qed.

(** X12.  What [cmdAdd] returns together with the calls it made is always one
    of the twelve outcomes of [AddRun], one per exit of the function, and
    each of the twelve occurs on some host. *)
Corollary AddRun_exact {T : TypesNetConf} args r log :
  AddRun args r log <-> exists H, exec (cmdAdd H args) = (r, log).
Proof.
  split.
  - intros Hrun. exists (replayHost log). apply cmdAdd_run_taken, Hrun.
  - intros [H Hexec]. apply (cmdAdd_run H), Hexec.
Qed.

Example scenario_attached :
  exec (cmdAdd healthyHost scenarioArgs) = (inr tt, scenarioLog).
Proof. reflexivity. Qed.

Example scenario_attach_failed :
  exec (cmdAdd (hostFailingAt 6) scenarioArgs)
  = (inl (FailedToConnect "veth1a2b3c4d" "ovsbr0" (Foreign "injected")),
     attachFailedLog).
Proof. reflexivity. Qed.

Example scenario_print_failed :
  exec (cmdAdd (hostFailingAt 9) scenarioArgs)
  = (inl (Foreign "injected"), printFailedLog).
Proof. reflexivity. Qed.

Example scenario_uplink_failed :
  exec (cmdAdd (hostFailingAt 1) scenarioArgs)
  = (inl (Foreign "injected"),
     [NewOVSSwitch_ "ovsbr0" (inr scenarioSwitch);
      addPort_ scenarioSwitch "eth1" (Some (Foreign "injected"))]).
Proof. reflexivity. Qed.

Example hardware_address_text :
  net.HardwareAddr_String [Byte.x0a; Byte.x58; Byte.xff; Byte.x01; Byte.x00; Byte.x03]
  = "0a:58:ff:01:00:03".
Proof. reflexivity. Qed.

(* ===================================================================== *)
(** * Order of the steps *)
(* ===================================================================== *)

(** C6.  Whenever a call opens, enters, uses or releases the target
    namespace, the calls before it begin with the creation of the switch and
    the attachment of the configured uplink, both successful.  So when the
    creation of the switch or the attachment of the uplink fails, no such call
    is made and no veth pair exists. *)
Theorem cmdAdd_uplink_before_namespace {T : TypesNetConf} (H : Host) args r log :
  exec (cmdAdd H args) = (r, log) ->
  (forall pre e post,
     log = pre ++ e :: post -> isNamespaceWork e = true ->
     exists n version br more,
       loadNetConf (StdinData args) = inr (n, version)
       /\ pre = NewOVSSwitch_ (BrName n) (inr br) :: addPort_ br (PNIC n) None :: more)
  /\
  (forall name br ifName e,
     nth_error log 0 = Some (NewOVSSwitch_ name (inl e))
     \/ nth_error log 1 = Some (addPort_ br ifName (Some e)) ->
     (forall ev, In ev log -> isNamespaceWork ev = false) /\ cablesLeft log = []).
Proof.
  intros Hrun. apply cmdAdd_run in Hrun. split.
  - intros pre e post Hs He.
    destruct Hrun; unfold_logs;
      split_log Hs; subst; simpl in He; try discriminate He;
      do 4 eexists; (split; [eassumption | reflexivity]).
  - intros name br0 ifName e0 Hfail.
    destruct Hrun; unfold_logs;
      simpl in Hfail; destruct Hfail as [Hf|Hf]; try discriminate Hf;
      (split; [ simpl; intros ev Hin;
                repeat (destruct Hin as [<-|Hin]; [reflexivity|]); destruct Hin
              | reflexivity ]).
Qed.

Lemma cmdAdd_uplink_before_namespace_witness :
  (exists (n : @NetConf versionOnly) version br more,
     loadNetConf (StdinData scenarioArgs) = inr (n, version)
     /\ [NewOVSSwitch_ "ovsbr0" (inr scenarioSwitch); addPort_ scenarioSwitch "eth1" None]
        = NewOVSSwitch_ (BrName n) (inr br) :: addPort_ br (PNIC n) None :: more)
  /\ cablesLeft [NewOVSSwitch_ "ovsbr0" (inr scenarioSwitch);
                 addPort_ scenarioSwitch "eth1" (Some (Foreign "injected"))] = [].
Proof.
  split.
  - apply (proj1 (cmdAdd_uplink_before_namespace (T := versionOnly) healthyHost scenarioArgs
                    (inr tt) scenarioLog ltac:(reflexivity))
                 [NewOVSSwitch_ "ovsbr0" (inr scenarioSwitch);
                  addPort_ scenarioSwitch "eth1" None]
                 (GetNS_ "/proc/1234/ns/net" None)
                 (tl (tl (tl scenarioLog))));
      reflexivity.
  - apply (proj2 (cmdAdd_uplink_before_namespace (T := versionOnly) (hostFailingAt 1) scenarioArgs
                    (inl (Foreign "injected"))
                    [NewOVSSwitch_ "ovsbr0" (inr scenarioSwitch);
                     addPort_ scenarioSwitch "eth1" (Some (Foreign "injected"))]
                    ltac:(reflexivity))
                 "ovsbr0" scenarioSwitch "eth1" (Foreign "injected")).
    right; reflexivity.
Defined.

(* ===================================================================== *)
(** * The veth pair and its port *)
(* ===================================================================== *)

(** In every run the port attached after the veth pair was made carries the
    name of the container end returned by [ip.SetupVeth]. *)
Lemma cmdAdd_port_after_cable {T : TypesNetConf} (H : Host) args r log :
  exec (cmdAdd H args) = (r, log) ->
  forall pre hostNS ifName mtu h c br port out post,
    log = pre ++ SetupVeth_ hostNS ifName mtu (inr (h, c))
              :: addPort_ br port out :: post ->
    port = net.Name c.
Proof.
  intros Hrun pre hostNS ifName mtu h c br0 port out post Hs.
  apply cmdAdd_run in Hrun.
  destruct Hrun; unfold_logs; split_log Hs; cut_at_cable; reflexivity.
Qed.

(** C1, as the code has it.  When the veth pair was made and the add-port
    call after it fails, [cmdAdd] returns the error of the failed attachment
    having made one more call only, the release of the namespace handle; the
    pair is still in place. *)
Theorem cmdAdd_failed_attach_keeps_cable {T : TypesNetConf} (H : Host) args r log :
  exec (cmdAdd H args) = (r, log) ->
  forall pre hostNS ifName mtu h c br port e post,
    log = pre ++ SetupVeth_ hostNS ifName mtu (inr (h, c))
              :: addPort_ br port (Some e) :: post ->
    r = inl (FailedToConnect (net.Name h) (bridgeName br) e)
    /\ post = [Close_ (mkNetNS (Netns args))]
    /\ cablesLeft log = [(h, c)].
Proof.
  intros Hrun pre hostNS ifName mtu h c br0 port e0 post Hs.
  apply cmdAdd_run in Hrun.
  destruct Hrun; unfold_logs; split_log Hs; cut_at_cable;
    repeat split; reflexivity.
Qed.

Lemma cmdAdd_failed_attach_keeps_cable_witness :
  exec (cmdAdd (hostFailingAt 6) scenarioArgs)
  = (inl (FailedToConnect "veth1a2b3c4d" "ovsbr0" (Foreign "injected")), attachFailedLog)
  /\ (inl (FailedToConnect "veth1a2b3c4d" "ovsbr0" (Foreign "injected")) : error + unit)
     = inl (FailedToConnect (net.Name (hostVethOf 1500)) (bridgeName scenarioSwitch)
                            (Foreign "injected"))
  /\ [Close_ scenarioNetns] = [Close_ (mkNetNS (Netns scenarioArgs))]
  /\ cablesLeft attachFailedLog = [(hostVethOf 1500, containerVethOf "eth0" 1500)].
Proof.
  split; [reflexivity|].
  apply (cmdAdd_failed_attach_keeps_cable (T := versionOnly)
           (hostFailingAt 6) scenarioArgs _ attachFailedLog ltac:(reflexivity)
           (firstn 5 scenarioCableLog) scenarioHostNS "eth0" 1500
           (hostVethOf 1500) (containerVethOf "eth0" 1500)
           scenarioSwitch "eth0" (Foreign "injected") [Close_ scenarioNetns]).
  reflexivity.
Defined.

(** C1, as the claim has it, fails.  On a host where the attachment of the
    port fails after the veth pair was made, [cmdAdd] returns the error right
    after the failed call, releasing the namespace handle and nothing else:
    the pair it made is still there. *)
Lemma cmdAdd_failed_attach_leaves_cable :
  exists pre,
    exec (cmdAdd (hostFailingAt 6) scenarioArgs)
    = (inl (FailedToConnect "veth1a2b3c4d" "ovsbr0" (Foreign "injected")),
       pre ++ [SetupVeth_ scenarioHostNS "eth0" 1500
                 (inr (hostVethOf 1500, containerVethOf "eth0" 1500));
               addPort_ scenarioSwitch "eth0" (Some (Foreign "injected"));
               Close_ scenarioNetns])
    /\ In (hostVethOf 1500, containerVethOf "eth0" 1500)
          (cablesLeft (snd (exec (cmdAdd (hostFailingAt 6) scenarioArgs)))).
Proof.
  exists (firstn 5 scenarioCableLog). split.
  - reflexivity.
  - left; reflexivity.
Qed.

(** C2, at the scenario of the specification.  The veth factory hands back
    the host end [veth1a2b3c4d] and the container end [eth0]; the port that
    [setupVeth] then attaches to the switch is [eth0], the container end,
    whereas its comment and its error message speak of the host end. *)
Theorem cmdAdd_attaches_container_end :
  exists pre post,
    exec (cmdAdd healthyHost scenarioArgs)
    = (inr tt,
       pre ++ SetupVeth_ scenarioHostNS "eth0" 1500
                (inr (hostVethOf 1500, containerVethOf "eth0" 1500))
           :: addPort_ scenarioSwitch "eth0" None :: post)
    /\ net.Name (hostVethOf 1500) = "veth1a2b3c4d"
    /\ net.Name (containerVethOf "eth0" 1500) = "eth0"
    /\ forall br port out,
         In (addPort_ br port out) (snd (exec (cmdAdd healthyHost scenarioArgs))) ->
         port <> net.Name (hostVethOf 1500).
Proof.
  exists (firstn 5 scenarioCableLog), (skipn 7 scenarioLog).
  split; [reflexivity|]. split; [reflexivity|]. split; [reflexivity|].
  intros br port out Hin.
  simpl in Hin.
  repeat (destruct Hin as [Hin|Hin];
          [try discriminate Hin; injection Hin as _ <- _; discriminate|]).
  destruct Hin.
Qed.

(* ===================================================================== *)
(** * The result *)
(* ===================================================================== *)

Lemma HardwareAddr_String_populated (a : list Byte.byte) :
  a <> [] -> net.HardwareAddr_String a <> EmptyString.
Proof.
  destruct a as [|b rest]; [congruence|].
  intros _. unfold net.HardwareAddr_String. simpl. discriminate.
Qed.

(** C5.  A successful attachment hands to the printer one result; it lists
    three descriptors: the switch device under the configured name, the host
    end of the veth pair and its container end, in that order, the first two
    without owning namespace and the third owned by the namespace of the
    request. *)
Theorem cmdAdd_result_interfaces {T : TypesNetConf} (H : Host) args log :
  exec (cmdAdd H args) = (inr tt, log) ->
  exists n version hostNS h c result,
    loadNetConf (StdinData args) = inr (n, version)
    /\ In (SetupVeth_ hostNS (IfName args) (MTU n) (inr (h, c))) log
    /\ In (PrintResult_ result version None) log
    /\ (forall result' version' out,
          In (PrintResult_ result' version' out) log -> result' = result)
    /\ exists switchDevice hostEnd containerEnd,
         current.Interfaces result = [switchDevice; hostEnd; containerEnd]
         /\ current.Name switchDevice = BrName n
         /\ current.Sandbox switchDevice = EmptyString
         /\ current.Name hostEnd = net.Name h
         /\ current.Sandbox hostEnd = EmptyString
         /\ current.Name containerEnd = net.Name c
         /\ current.Sandbox containerEnd = Netns args.
Proof.
  intros Hrun. apply cmdAdd_run in Hrun.
  inversion Hrun as [| | | | | | | | | | |n version br r0 hostNS h c hostNS' Hload Hr Hlog].
  exists n, version, hostNS, h, c, (topology args n h c).
  split; [exact Hload|]. unfold_logs. simpl.
  split; [tauto|]. split; [tauto|]. split.
  - intros result' version' out Hin.
    repeat (destruct Hin as [Hin|Hin]; [try discriminate Hin|]).
    + injection Hin as <- _ _; reflexivity.
    + destruct Hin.
  - do 3 eexists. repeat split; reflexivity.
Qed.

Lemma cmdAdd_result_interfaces_witness :
  exec (cmdAdd healthyHost scenarioArgs) = (inr tt, scenarioLog)
  /\ exists (n : @NetConf versionOnly) version hostNS h c result,
       loadNetConf (StdinData scenarioArgs) = inr (n, version)
       /\ In (SetupVeth_ hostNS (IfName scenarioArgs) (MTU n) (inr (h, c))) scenarioLog
       /\ In (PrintResult_ result version None) scenarioLog
       /\ (forall result' version' out,
             In (PrintResult_ result' version' out) scenarioLog -> result' = result)
       /\ exists switchDevice hostEnd containerEnd,
            current.Interfaces result = [switchDevice; hostEnd; containerEnd]
            /\ current.Name switchDevice = BrName n
            /\ current.Sandbox switchDevice = EmptyString
            /\ current.Name hostEnd = net.Name h
            /\ current.Sandbox hostEnd = EmptyString
            /\ current.Name containerEnd = net.Name c
            /\ current.Sandbox containerEnd = Netns scenarioArgs.
Proof.
  split; [reflexivity|].
  apply (cmdAdd_result_interfaces (T := versionOnly) healthyHost scenarioArgs scenarioLog).
  reflexivity.
Defined.

(** C10, as the code has it.  In the result of a successful attachment the
    descriptors of the switch device and of the host end have an empty
    hardware address; the descriptor of the container end has the text of the
    address that the veth factory reported for the container end, which is
    empty exactly when that address has no byte. *)
Theorem cmdAdd_result_hardware_addresses {T : TypesNetConf} (H : Host) args log :
  exec (cmdAdd H args) = (inr tt, log) ->
  exists hostNS ifName mtu h c result version,
    In (SetupVeth_ hostNS ifName mtu (inr (h, c))) log
    /\ In (PrintResult_ result version None) log
    /\ exists switchDevice hostEnd containerEnd,
         current.Interfaces result = [switchDevice; hostEnd; containerEnd]
         /\ current.Mac switchDevice = EmptyString
         /\ current.Mac hostEnd = EmptyString
         /\ current.Mac containerEnd = net.HardwareAddr_String (net.HardwareAddr c)
         /\ (current.Mac containerEnd = EmptyString <-> net.HardwareAddr c = []).
Proof.
  intros Hrun. apply cmdAdd_run in Hrun.
  inversion Hrun as [| | | | | | | | | | |n version br r0 hostNS h c hostNS' Hload Hr Hlog].
  exists hostNS, (IfName args), (MTU n), h, c, (topology args n h c), version.
  unfold_logs. simpl.
  split; [tauto|]. split; [tauto|].
  do 3 eexists. split; [reflexivity|].
  split; [reflexivity|]. split; [reflexivity|]. split; [reflexivity|].
  split.
  - intros Hempty. destruct (net.HardwareAddr c) as [|b rest] eqn:Haddr; [reflexivity|].
    exfalso. apply (HardwareAddr_String_populated (b :: rest)); [discriminate|].
    exact Hempty.
  - intros ->. reflexivity.
Qed.

Lemma cmdAdd_result_hardware_addresses_witness :
  exec (cmdAdd healthyHost scenarioArgs) = (inr tt, scenarioLog)
  /\ exists hostNS ifName mtu h c result version,
       In (SetupVeth_ hostNS ifName mtu (inr (h, c))) scenarioLog
       /\ In (PrintResult_ result version None) scenarioLog
       /\ exists switchDevice hostEnd containerEnd,
            current.Interfaces result = [switchDevice; hostEnd; containerEnd]
            /\ current.Mac switchDevice = EmptyString
            /\ current.Mac hostEnd = EmptyString
            /\ current.Mac containerEnd = net.HardwareAddr_String (net.HardwareAddr c)
            /\ (current.Mac containerEnd = EmptyString <-> net.HardwareAddr c = []).
Proof.
  split; [reflexivity|].
  apply (cmdAdd_result_hardware_addresses (T := versionOnly)
           healthyHost scenarioArgs scenarioLog).
  reflexivity.
Defined.

(** C10, as the claim has it, fails: on a host whose veth factory reports a
    container end without hardware address the attachment succeeds, and the
    descriptor of the container end has an empty hardware address like the
    other two. *)
Lemma cmdAdd_addressless_container_end :
  exec (cmdAdd addresslessHost scenarioArgs)
  = (inr tt,
     [NewOVSSwitch_ "ovsbr0" (inr scenarioSwitch);
      addPort_ scenarioSwitch "eth1" None;
      GetNS_ "/proc/1234/ns/net" None;
      NewResultFromResult_ (inr (current.mkResult []));
      Do_ scenarioNetns (inr scenarioHostNS);
      SetupVeth_ scenarioHostNS "eth0" 1500
        (inr (hostVethOf 1500, net.mkInterface 3 1500 "eth0" [] 0));
      addPort_ scenarioSwitch "eth0" None;
      Do_ scenarioNetns (inr scenarioHostNS);
      InterfaceByName_ "eth0" None;
      PrintResult_
        (current.mkResult
           [current.mkInterface "ovsbr0" EmptyString EmptyString;
            current.mkInterface "veth1a2b3c4d" EmptyString EmptyString;
            current.mkInterface "eth0" EmptyString "/proc/1234/ns/net"])
        "0.3.1" None;
      Close_ scenarioNetns]).
Proof. reflexivity. Qed.

(* ===================================================================== *)
(** * No partial result *)
(* ===================================================================== *)

Lemma stepsSucceeded_lookup {T : TypesNetConf} args log :
  stepsSucceeded args log -> In (InterfaceByName_ (IfName args) None) log.
Proof.
  intros (n & version & br & hostNS & h & c & port & pre & mid & post & _ & ->).
  do 3 right. apply in_or_app; right. do 2 right.
  apply in_or_app; right. left; reflexivity.
Qed.

Lemma stepsSucceeded_reached {T : TypesNetConf} args (n : NetConf) version
      br r0 hostNS h c hostNS' post :
  loadNetConf (StdinData args) = inr (n, version) ->
  stepsSucceeded args
    (attachedLog args n br r0 hostNS h c
     ++ Do_ (mkNetNS (Netns args)) (inr hostNS')
        :: InterfaceByName_ (IfName args) None :: post).
Proof.
  intros Hload.
  exists n, version, br, hostNS, h, c, (net.Name c),
    [NewResultFromResult_ (inr r0); Do_ (mkNetNS (Netns args)) (inr hostNS)],
    [Do_ (mkNetNS (Netns args)) (inr hostNS')], post.
  split; [exact Hload | reflexivity].
Qed.

(** C7, as the code has it.  A result is printed exactly when [cmdAdd]
    returns no error, and then all seven steps succeeded.  When all seven
    steps succeeded the result, with its three descriptors, is handed to the
    printer as the last call before the release of the namespace handle, and
    [cmdAdd] returns what the printer returns.  When [cmdAdd] returns an error
    no result is printed. *)
Theorem cmdAdd_no_partial_result {T : TypesNetConf} (H : Host) args r log :
  exec (cmdAdd H args) = (r, log) ->
  (printed log <-> r = inr tt)
  /\ (printed log -> stepsSucceeded args log)
  /\ (stepsSucceeded args log ->
      exists before result version out,
        log = before ++ [PrintResult_ result version out; Close_ (mkNetNS (Netns args))]
        /\ length (current.Interfaces result) = 3%nat
        /\ r = match out with Some err => inl err | None => inr tt end)
  /\ (forall err, r = inl err -> ~ printed log).
Proof.
  intros Hrun. apply cmdAdd_run in Hrun.
  assert (Hprinted : printed log -> r = inr tt /\ stepsSucceeded args log).
  { intros (result & version & Hin).
    destruct Hrun;
      try (exfalso; unfold_logs; in_log Hin; fail).
    split; [reflexivity|].
    eapply stepsSucceeded_reached; eassumption. }
  split; [|split; [|split]].
  - split; [apply Hprinted|].
    intros ->. inversion Hrun. unfold_logs.
    do 2 eexists. simpl. do 9 right. left. reflexivity.
  - apply Hprinted.
  - intros Hsteps. apply stepsSucceeded_lookup in Hsteps.
    destruct Hrun; try (exfalso; unfold_logs; in_log Hsteps; fail);
      match goal with
      | |- exists _ _ _ _, ?a ++ [?x; ?y; PrintResult_ ?res ?v ?o; _] = _ /\ _ =>
          exists (a ++ [x; y]), res, v, o
      end;
      (split; [rewrite <- app_assoc; reflexivity | split; reflexivity]).
  - intros err -> Hp. apply Hprinted in Hp. destruct Hp as [Hp _]. discriminate Hp.
Qed.

Lemma cmdAdd_no_partial_result_witness :
  exec (cmdAdd healthyHost scenarioArgs) = (inr tt, scenarioLog)
  /\ (printed scenarioLog <-> (inr tt : error + unit) = inr tt)
  /\ (printed scenarioLog -> stepsSucceeded scenarioArgs scenarioLog)
  /\ (stepsSucceeded scenarioArgs scenarioLog ->
      exists before result version out,
        scenarioLog
        = before ++ [PrintResult_ result version out;
                     Close_ (mkNetNS (Netns scenarioArgs))]
        /\ length (current.Interfaces result) = 3%nat
        /\ (inr tt : error + unit)
           = match out with Some err => inl err | None => inr tt end)
  /\ (forall err, (inr tt : error + unit) = inl err -> ~ printed scenarioLog).
Proof.
  split; [reflexivity|].
  apply (cmdAdd_no_partial_result (T := versionOnly) healthyHost scenarioArgs
           (inr tt) scenarioLog).
  reflexivity.
Defined.

(** C7, as the claim has it, fails in one direction.  On a host where only
    the printer fails, the seven steps have all succeeded, yet no result is
    printed and [cmdAdd] returns the printer's error. *)
Lemma cmdAdd_steps_succeeded_not_printed :
  exec (cmdAdd (hostFailingAt 9) scenarioArgs) = (inl (Foreign "injected"), printFailedLog)
  /\ stepsSucceeded scenarioArgs printFailedLog
  /\ ~ printed printFailedLog.
Proof.
  split; [reflexivity|]. split.
  - exists scenarioNetConf, "0.3.1", scenarioSwitch, scenarioHostNS,
      (hostVethOf 1500), (containerVethOf "eth0" 1500), "eth0",
      [NewResultFromResult_ (inr (current.mkResult []));
       Do_ scenarioNetns (inr scenarioHostNS)],
      [Do_ scenarioNetns (inr scenarioHostNS)],
      [PrintResult_ scenarioResult "0.3.1" (Some (Foreign "injected"));
       Close_ scenarioNetns].
    split; reflexivity.
  - intros (result & version & Hin). in_log Hin.
Qed.

(* ===================================================================== *)
(** * Teardown *)
(* ===================================================================== *)

(** [cmdDel] calls no collaborator: it returns what the loading of the
    configuration gives, with an empty log. *)
Lemma cmdDel_run {T : TypesNetConf} args :
  exec (cmdDel args)
  = (match loadNetConf (StdinData args) with
     | inl err => inl err
     | inr _ => inr tt
     end, []).
Proof.
  unfold exec, cmdDel, ret, fail.
  destruct (loadNetConf (StdinData args)) as [err|[n version]]; [reflexivity|].
  destruct (Netns args =? EmptyString)%string; reflexivity.
Qed.

(** C3, as the code has it.  A teardown whose namespace path is not empty
    loads the configuration and returns: the load error if there is one and
    no error otherwise, without any call on the switch client, so no port is
    detached. *)
Theorem cmdDel_detaches_nothing {T : TypesNetConf} args r log :
  Netns args <> EmptyString ->
  exec (cmdDel args) = (r, log) ->
  (forall e, In e log -> isSwitchCall e = false)
  /\ log = []
  /\ (forall n version, loadNetConf (StdinData args) = inr (n, version) -> r = inr tt)
  /\ (forall err, loadNetConf (StdinData args) = inl err -> r = inl err).
Proof.
  intros _. rewrite cmdDel_run. intros [= <- <-].
  split; [intros e []|]. split; [reflexivity|].
  split; [intros n version -> | intros err ->]; reflexivity.
Qed.

Lemma cmdDel_detaches_nothing_witness :
  Netns scenarioArgs <> EmptyString
  /\ exec (cmdDel scenarioArgs) = (inr tt, [])
  /\ (forall e, In e (@nil Event) -> isSwitchCall e = false)
  /\ @nil Event = []
  /\ (forall (n : @NetConf versionOnly) version,
        loadNetConf (StdinData scenarioArgs) = inr (n, version) ->
        (inr tt : error + unit) = inr tt)
  /\ (forall err,
        @loadNetConf versionOnly (StdinData scenarioArgs) = inl err ->
        (inr tt : error + unit) = inl err).
Proof.
  split; [discriminate|]. split; [reflexivity|].
  apply (cmdDel_detaches_nothing (T := versionOnly) scenarioArgs (inr tt) []).
  - discriminate.
  - reflexivity.
Defined.

(** C3, as the claim has it, fails: the teardown of the scenario, whose
    namespace path is not empty, returns without a single call, so without a
    del-port on the switch. *)
Lemma cmdDel_scenario_makes_no_call :
  Netns scenarioArgs = "/proc/1234/ns/net"
  /\ exec (cmdDel scenarioArgs) = (inr tt, [])
  /\ ~ exists e, In e (snd (exec (cmdDel scenarioArgs))) /\ isSwitchCall e = true.
Proof.
  split; [reflexivity|]. split; [reflexivity|].
  intros (e & Hin & _). exact Hin.
Qed.

(** C4, as the code has it.  A teardown whose namespace path is empty makes
    no call on the switch client; it returns no error when its configuration
    loads, and the load error when it does not. *)
Theorem cmdDel_empty_netns {T : TypesNetConf} args r log :
  Netns args = EmptyString ->
  exec (cmdDel args) = (r, log) ->
  (forall e, In e log -> isSwitchCall e = false)
  /\ (forall n version, loadNetConf (StdinData args) = inr (n, version) -> r = inr tt)
  /\ (forall err, loadNetConf (StdinData args) = inl err -> r = inl err).
Proof.
  intros _. rewrite cmdDel_run. intros [= <- <-].
  split; [intros e []|].
  split; [intros n version -> | intros err ->]; reflexivity.
Qed.

Lemma cmdDel_empty_netns_witness :
  exec (cmdDel (mkCmdArgs "c0ffee" EmptyString "eth0" EmptyString "/opt/cni/bin"
                          (Some scenarioConf)))
  = (inr tt, [])
  /\ (forall e, In e (@nil Event) -> isSwitchCall e = false)
  /\ (forall (n : @NetConf versionOnly) version,
        loadNetConf (Some scenarioConf) = inr (n, version) ->
        (inr tt : error + unit) = inr tt)
  /\ (forall err,
        @loadNetConf versionOnly (Some scenarioConf) = inl err ->
        (inr tt : error + unit) = inl err).
Proof.
  split; [reflexivity|].
  apply (cmdDel_empty_netns (T := versionOnly)
           (mkCmdArgs "c0ffee" EmptyString "eth0" EmptyString "/opt/cni/bin"
                      (Some scenarioConf))
           (inr tt) []); reflexivity.
Defined.

(** C4, as the claim has it, fails: with an empty namespace path and a
    configuration that does not load, the teardown returns the load error. *)
Lemma cmdDel_empty_netns_can_fail :
  Netns badMtuArgs = EmptyString
  /\ exec (cmdDel badMtuArgs)
     = (inl (FailedToLoadNetconf (UnmarshalTypeError "mtu")), []).
Proof. split; reflexivity. Qed.

(* ===================================================================== *)
(** * More on configuration loading *)
(* ===================================================================== *)

Lemma simpleLetterEqualFold_length s t :
  simpleLetterEqualFold s t = true -> String.length s = String.length t.
Proof.
  revert t. induction s as [|b s IH]; intros [|c t]; simpl; try discriminate.
  - reflexivity.
  - intros Hfold. apply andb_prop in Hfold. destruct Hfold as [_ Hfold].
    f_equal. apply IH, Hfold.
Qed.

(** A key names at most one of the three fields of the plugin. *)
Lemma names_one_field key :
  (namesMtu key = true -> namesBridge key = false)
  /\ (namesPNIC key = true -> namesBridge key = false /\ namesMtu key = false).
Proof.
  unfold namesMtu, namesPNIC, namesBridge. split.
  - intros Hm. apply simpleLetterEqualFold_length in Hm.
    destruct (simpleLetterEqualFold "bridge" key) eqn:Hb; [|reflexivity].
    apply simpleLetterEqualFold_length in Hb. rewrite <- Hm in Hb. discriminate Hb.
  - intros Hp. apply simpleLetterEqualFold_length in Hp. split.
    + destruct (simpleLetterEqualFold "bridge" key) eqn:Hb; [|reflexivity].
      apply simpleLetterEqualFold_length in Hb. rewrite <- Hp in Hb. discriminate Hb.
    + destruct (simpleLetterEqualFold "mtu" key) eqn:Hm; [|reflexivity].
      apply simpleLetterEqualFold_length in Hm. rewrite <- Hp in Hm. discriminate Hm.
Qed.

Section MoreConfigurationFacts.
Context {T : TypesNetConf}.

Lemma decodeMember_not_mtu key v (n n' : NetConf) :
  namesMtu key = false ->
  decodeMember key v n = Some n' ->
  MTU n' = MTU n.
Proof.
  unfold namesMtu, decodeMember. intros ->.
  destruct (simpleLetterEqualFold "bridge" key).
  - destruct (decodeString v (BrName n)); simpl; intros [= <-]; reflexivity.
  - destruct (simpleLetterEqualFold "pNIC" key).
    + destruct (decodeString v (PNIC n)); simpl; intros [= <-]; reflexivity.
    + destruct (types_field key) as [dec|].
      * destruct (dec v (embedded n)); simpl; intros [= <-]; reflexivity.
      * intros [= <-]; reflexivity.
Qed.

Lemma decodeMember_not_pNIC key v (n n' : NetConf) :
  namesPNIC key = false ->
  decodeMember key v n = Some n' ->
  PNIC n' = PNIC n.
Proof.
  unfold namesPNIC, decodeMember. intros ->.
  destruct (simpleLetterEqualFold "bridge" key).
  - destruct (decodeString v (BrName n)); simpl; intros [= <-]; reflexivity.
  - destruct (simpleLetterEqualFold "mtu" key).
    + destruct (decodeInt v (MTU n)); simpl; intros [= <-]; reflexivity.
    + destruct (types_field key) as [dec|].
      * destruct (dec v (embedded n)); simpl; intros [= <-]; reflexivity.
      * intros [= <-]; reflexivity.
Qed.

Lemma decodeMember_mtu_key key v (n n' : NetConf) :
  namesMtu key = true ->
  decodeMember key v n = Some n' ->
  decodeInt v (MTU n) = Some (MTU n').
Proof.
  intros Hk. pose proof (proj1 (names_one_field key) Hk) as Hb.
  unfold namesMtu, namesBridge in Hk, Hb. unfold decodeMember. rewrite Hb, Hk.
  destruct (decodeInt v (MTU n)); simpl; intros [= <-]; reflexivity.
Qed.

Lemma decodeMember_pNIC_key key v (n n' : NetConf) :
  namesPNIC key = true ->
  decodeMember key v n = Some n' ->
  decodeString v (PNIC n) = Some (PNIC n').
Proof.
  intros Hk. destruct (proj2 (names_one_field key) Hk) as [Hb Hm].
  unfold namesPNIC, namesMtu, namesBridge in Hk, Hb, Hm.
  unfold decodeMember. rewrite Hb, Hm, Hk.
  destruct (decodeString v (PNIC n)); simpl; intros [= <-]; reflexivity.
Qed.

Lemma decodeObject_without_mtu members (n n' : NetConf) :
  (forall k v, In (k, v) members -> namesMtu k = false) ->
  decodeObject members n = inr n' ->
  MTU n' = MTU n.
Proof.
  revert n. induction members as [|[key v] rest IH]; intros n Hno; simpl.
  - intros [= <-]; reflexivity.
  - destruct (decodeMember key v n) as [n1|] eqn:E; [|discriminate].
    intros Hrest. rewrite (IH n1).
    + apply (decodeMember_not_mtu key v); [apply (Hno key v); left|]; auto.
    + intros k w Hin. apply (Hno k w). right; exact Hin.
    + exact Hrest.
Qed.

Lemma decodeObject_without_pNIC members (n n' : NetConf) :
  (forall k v, In (k, v) members -> namesPNIC k = false) ->
  decodeObject members n = inr n' ->
  PNIC n' = PNIC n.
Proof.
  revert n. induction members as [|[key v] rest IH]; intros n Hno; simpl.
  - intros [= <-]; reflexivity.
  - destruct (decodeMember key v n) as [n1|] eqn:E; [|discriminate].
    intros Hrest. rewrite (IH n1).
    + apply (decodeMember_not_pNIC key v); [apply (Hno key v); left|]; auto.
    + intros k w Hin. apply (Hno k w). right; exact Hin.
    + exact Hrest.
Qed.

(** Without a member that names the uplink, the uplink is the empty string. *)
Lemma loadNetConf_no_uplink bytes (n : NetConf) version :
  loadNetConf bytes = inr (n, version) ->
  (forall k v, In (k, v) (membersOf bytes) -> namesPNIC k = false) ->
  PNIC n = EmptyString.
Proof.
  intros Hload Hno. apply loadNetConf_accepts in Hload.
  apply (decodeObject_without_pNIC _ _ _ Hno Hload).
Qed.

(** A member that no state of the struct can take in fails the object. *)
Lemma decodeObject_rejects members k v (n : NetConf) :
  In (k, v) members ->
  (forall m : NetConf, decodeMember k v m = None) ->
  exists key, decodeObject members n = inl (UnmarshalTypeError key).
Proof.
  revert n. induction members as [|[key w] rest IH]; intros n Hin Hbad; simpl.
  - destruct Hin.
  - destruct (decodeMember key w n) as [n1|] eqn:E.
    + destruct Hin as [Heq|Hin].
      * injection Heq as -> ->. rewrite Hbad in E. discriminate E.
      * apply IH; assumption.
    + exists key; reflexivity.
Qed.

(** A member that every state of the struct takes in unchanged can be left
    out of the object. *)
Lemma decodeObject_skip pre k v post (n : NetConf) :
  (forall m : NetConf, decodeMember k v m = Some m) ->
  decodeObject (pre ++ (k, v) :: post) n = decodeObject (pre ++ post) n.
Proof.
  intros Hskip. rewrite !decodeObject_app.
  destruct (decodeObject pre n) as [err|n1]; [reflexivity|].
  simpl. rewrite Hskip. reflexivity.
Qed.

End MoreConfigurationFacts.

(** X1.  When the loader accepts a configuration, the MTU is 0 if no member
    names it and the uplink is the empty string if no member names it; a
    member that names the MTU with an integer gives that integer, which then
    lies within 64 bits, and a member that names the uplink with a string
    gives that string (the last such member, should the document repeat the
    key). *)
Theorem loadNetConf_mtu_and_uplink {T : TypesNetConf} bytes (n : NetConf) version :
  loadNetConf bytes = inr (n, version) ->
  ((forall k v, In (k, v) (membersOf bytes) -> namesMtu k = false) -> MTU n = 0%Z)
  /\ ((forall k v, In (k, v) (membersOf bytes) -> namesPNIC k = false) ->
      PNIC n = EmptyString)
  /\ (forall pre k z post,
        membersOf bytes = pre ++ (k, JInt z) :: post ->
        namesMtu k = true ->
        (forall k' v', In (k', v') post -> namesMtu k' = false) ->
        MTU n = z /\ (- 2 ^ 63 <= z)%Z /\ (z < 2 ^ 63)%Z)
  /\ (forall pre k s post,
        membersOf bytes = pre ++ (k, JString s) :: post ->
        namesPNIC k = true ->
        (forall k' v', In (k', v') post -> namesPNIC k' = false) ->
        PNIC n = s).
Proof.
  intros Hload. pose proof (loadNetConf_accepts _ _ _ Hload) as Hdec.
  split; [|split; [|split]].
  - intros Hno. apply (decodeObject_without_mtu _ _ _ Hno Hdec).
  - intros Hno. apply (decodeObject_without_pNIC _ _ _ Hno Hdec).
  - intros pre k z post Hsplit Hk Hpost.
    rewrite Hsplit, decodeObject_app in Hdec.
    destruct (decodeObject pre _) as [|n1]; [discriminate|].
    simpl in Hdec.
    destruct (decodeMember k (JInt z) n1) as [n2|] eqn:E; [|discriminate].
    apply decodeMember_mtu_key in E; [|exact Hk].
    unfold decodeInt in E.
    match type of E with
    | (if ?inRange then _ else _) = _ => destruct inRange eqn:Hrange
    end; [|discriminate].
    injection E as E.
    apply andb_prop in Hrange. destruct Hrange as [Hlo Hhi].
    rewrite (decodeObject_without_mtu _ _ _ Hpost Hdec).
    split; [symmetry; exact E|].
    split; [apply Z.leb_le, Hlo | apply Z.ltb_lt, Hhi].
  - intros pre k s post Hsplit Hk Hpost.
    rewrite Hsplit, decodeObject_app in Hdec.
    destruct (decodeObject pre _) as [|n1]; [discriminate|].
    simpl in Hdec.
    destruct (decodeMember k (JString s) n1) as [n2|] eqn:E; [|discriminate].
    apply decodeMember_pNIC_key in E; [|exact Hk].
    simpl in E. injection E as E.
    rewrite (decodeObject_without_pNIC _ _ _ Hpost Hdec). symmetry; exact E.
Qed.

Lemma loadNetConf_mtu_and_uplink_witness :
  loadNetConf (Some scenarioConf) = inr (scenarioNetConf, "0.3.1")
  /\ (MTU scenarioNetConf = 1500%Z /\ (- 2 ^ 63 <= 1500)%Z /\ (1500 < 2 ^ 63)%Z)
  /\ PNIC scenarioNetConf = "eth1"
  /\ MTU (@mkNetConf versionOnly EmptyString "br-int" 0 EmptyString) = 0%Z
  /\ PNIC (@mkNetConf versionOnly EmptyString "br-int" 0 EmptyString) = EmptyString.
Proof.
  pose proof (loadNetConf_mtu_and_uplink (Some scenarioConf) scenarioNetConf "0.3.1"
                eq_refl) as (_ & _ & Hmtu & Huplink).
  pose proof (loadNetConf_mtu_and_uplink
                (Some (JObject [("bridge", JString "br-int")]))
                (@mkNetConf versionOnly EmptyString "br-int" 0 EmptyString)
                EmptyString eq_refl) as (Hmtu0 & Huplink0 & _ & _).
  split; [reflexivity|]. split; [|split; [|split]].
  - apply (Hmtu [("cniVersion", JString "0.3.1"); ("bridge", JString "ovsbr0")]
                "mtu" 1500%Z [("pNIC", JString "eth1")]).
    + reflexivity.
    + reflexivity.
    + simpl; intros k' v' [[= <- _]|[]]; reflexivity.
  - apply (Huplink [("cniVersion", JString "0.3.1"); ("bridge", JString "ovsbr0");
                    ("mtu", JInt 1500)] "pNIC" "eth1" []).
    + reflexivity.
    + reflexivity.
    + intros k' v' [].
  - apply Hmtu0. simpl; intros k v [[= <- _]|[]]; reflexivity.
  - apply Huplink0. simpl; intros k v [[= <- _]|[]]; reflexivity.
Defined.

(** X2.  A member that names the bridge or the uplink with a value that is
    neither a string nor [null], or that names the MTU with a value that is
    neither [null] nor an integer within 64 bits, makes the loader reject the
    whole configuration, wherever the member stands in the document. *)
Theorem loadNetConf_rejects_mistyped {T : TypesNetConf} members k v :
  In (k, v) members ->
  ((namesBridge k = true \/ namesPNIC k = true)
   /\ v <> JNull /\ (forall s, v <> JString s))
  \/ (namesMtu k = true
      /\ v <> JNull
      /\ (forall z, v = JInt z -> (z < - 2 ^ 63)%Z \/ (2 ^ 63 <= z)%Z)) ->
  exists cause,
    loadNetConf (Some (JObject members)) = inl (FailedToLoadNetconf cause).
Proof.
  intros Hin Hbad.
  assert (Hnone : forall m : NetConf, decodeMember k v m = None).
  { intros m. destruct Hbad as [([Hk|Hk] & Hnull & Hstr)|(Hk & Hnull & Hint)].
    - unfold namesBridge in Hk. unfold decodeMember. rewrite Hk.
      destruct v; try reflexivity; [contradiction Hnull; reflexivity|].
      contradiction (Hstr s); reflexivity.
    - destruct (proj2 (names_one_field k) Hk) as [Hb Hm].
      unfold namesPNIC, namesMtu, namesBridge in Hk, Hb, Hm.
      unfold decodeMember. rewrite Hb, Hm, Hk.
      destruct v; try reflexivity; [contradiction Hnull; reflexivity|].
      contradiction (Hstr s); reflexivity.
    - pose proof (proj1 (names_one_field k) Hk) as Hb.
      unfold namesMtu, namesBridge in Hk, Hb.
      unfold decodeMember. rewrite Hb, Hk.
      destruct v; try reflexivity; [contradiction Hnull; reflexivity|].
      unfold decodeInt.
      destruct (Hint z eq_refl) as [Hlo|Hhi].
      + apply Z.leb_gt in Hlo. rewrite Hlo. reflexivity.
      + apply Z.ltb_ge in Hhi. rewrite Hhi, andb_false_r. reflexivity. }
  destruct (decodeObject_rejects members k v
              (mkNetConf types_zero defaultBrName 0 EmptyString) Hin Hnone)
    as [key Hkey].
  exists (UnmarshalTypeError key).
  unfold loadNetConf, Unmarshal. rewrite Hkey. reflexivity.
Qed.

Lemma loadNetConf_rejects_mistyped_witness :
  (exists cause,
     @loadNetConf versionOnly
       (Some (JObject [("bridge", JString "ovsbr0"); ("mtu", JInt (2 ^ 63))]))
     = inl (FailedToLoadNetconf cause))
  /\ (exists cause,
        @loadNetConf versionOnly
          (Some (JObject [("pNIC", JArray [JString "eth1"]); ("mtu", JInt 1500)]))
        = inl (FailedToLoadNetconf cause)).
Proof.
  split.
  - apply (loadNetConf_rejects_mistyped (T := versionOnly)
             [("bridge", JString "ovsbr0"); ("mtu", JInt (2 ^ 63))]
             "mtu" (JInt (2 ^ 63))).
    + right; left; reflexivity.
    + right. split; [reflexivity|]. split; [discriminate|].
      intros z [= <-]. right. apply Z.le_refl.
  - apply (loadNetConf_rejects_mistyped (T := versionOnly)
             [("pNIC", JArray [JString "eth1"]); ("mtu", JInt 1500)]
             "pNIC" (JArray [JString "eth1"])).
    + left; reflexivity.
    + left. split; [right; reflexivity|]. split; discriminate.
Defined.

(** X3.  A member has no effect on what the loader returns, and can be left
    out of the document, when its key names no field of the configuration,
    or when its value is [null] and its key names one of the three fields of
    the plugin. *)
Theorem loadNetConf_ignores_member {T : TypesNetConf} pre k v post :
  (namesBridge k = false /\ namesMtu k = false /\ namesPNIC k = false
   /\ types_field k = None)
  \/ ((namesBridge k = true \/ namesMtu k = true \/ namesPNIC k = true)
      /\ v = JNull) ->
  loadNetConf (Some (JObject (pre ++ (k, v) :: post)))
  = loadNetConf (Some (JObject (pre ++ post))).
Proof.
  intros Hskip.
  assert (Hsame : forall m : NetConf, decodeMember k v m = Some m).
  { intros [e b mtu p].
    destruct Hskip as [(Hb & Hm & Hp & Hf)|([Hk|[Hk|Hk]] & ->)].
    - unfold namesBridge, namesMtu, namesPNIC in Hb, Hm, Hp.
      unfold decodeMember. rewrite Hb, Hm, Hp, Hf. reflexivity.
    - unfold namesBridge in Hk. unfold decodeMember. rewrite Hk. reflexivity.
    - pose proof (proj1 (names_one_field k) Hk) as Hb.
      unfold namesMtu, namesBridge in Hk, Hb.
      unfold decodeMember. rewrite Hb, Hk. reflexivity.
    - destruct (proj2 (names_one_field k) Hk) as [Hb Hm].
      unfold namesPNIC, namesMtu, namesBridge in Hk, Hb, Hm.
      unfold decodeMember. rewrite Hb, Hm, Hk. reflexivity. }
  unfold loadNetConf, Unmarshal.
  rewrite (decodeObject_skip pre k v post _ Hsame). reflexivity.
Qed.

Lemma loadNetConf_ignores_member_witness :
  @loadNetConf versionOnly
    (Some (JObject [("bridge", JString "br-int"); ("hairpinMode", JBool true);
                    ("mtu", JInt 9000)]))
  = loadNetConf (Some (JObject [("bridge", JString "br-int"); ("mtu", JInt 9000)]))
  /\ @loadNetConf versionOnly
       (Some (JObject [("bridge", JString "br-int"); ("Bridge", JNull)]))
     = loadNetConf (Some (JObject [("bridge", JString "br-int")])).
Proof.
  split.
  - apply (loadNetConf_ignores_member (T := versionOnly)
             [("bridge", JString "br-int")] "hairpinMode" (JBool true)
             [("mtu", JInt 9000)]).
    left. repeat split; reflexivity.
  - apply (loadNetConf_ignores_member (T := versionOnly)
             [("bridge", JString "br-int")] "Bridge" JNull []).
    right. split; [left; reflexivity | reflexivity].
Defined.

(* ===================================================================== *)
(** * More on the runs of an attachment *)
(* ===================================================================== *)

(** X4.  The namespace handle is released on every path that opened it, as
    the last call of the run and only there; a run that did not open the
    namespace releases nothing. *)
Theorem cmdAdd_releases_handle {T : TypesNetConf} (H : Host) args r log :
  exec (cmdAdd H args) = (r, log) ->
  ((exists nspath, In (GetNS_ nspath None) log) ->
   exists before,
     log = before ++ [Close_ (mkNetNS (Netns args))]
     /\ forall netns, ~ In (Close_ netns) before)
  /\ ((forall nspath, ~ In (GetNS_ nspath None) log) ->
      forall netns, ~ In (Close_ netns) log).
Proof.
  intros Hrun. apply cmdAdd_run in Hrun.
  destruct Hrun; unfold_logs; simpl;
    (split;
     [ intros [nspath Hin];
       first [ exfalso; in_log Hin; fail
             | match goal with
               | |- exists before, ?l = _ /\ _ => exists (removelast l)
               end;
               split; [reflexivity | intros netns Hc; in_log Hc] ]
     | intros Hno netns Hc;
       first [ in_log Hc; fail
             | apply (Hno (Netns args)); simpl; tauto ] ]).
Qed.

Lemma cmdAdd_releases_handle_witness :
  exec (cmdAdd (hostFailingAt 6) scenarioArgs)
  = (inl (FailedToConnect "veth1a2b3c4d" "ovsbr0" (Foreign "injected")), attachFailedLog)
  /\ (exists before,
        attachFailedLog = before ++ [Close_ (mkNetNS (Netns scenarioArgs))]
        /\ forall netns, ~ In (Close_ netns) before).
Proof.
  split; [reflexivity|].
  apply (proj1 (cmdAdd_releases_handle (T := versionOnly) (hostFailingAt 6) scenarioArgs
                  _ attachFailedLog ltac:(reflexivity))).
  exists "/proc/1234/ns/net". simpl. tauto.
Defined.

Ltac calls_up_to k :=
  exists k; split; [repeat constructor|];
  split; [first [left; reflexivity | right; reflexivity]|];
  split; [first [reflexivity | discriminate | intros; discriminate]|];
  simpl; repeat constructor.

(** X5.  The calls of a run are made in the order of the text of [cmdAdd]:
    their kinds are the first [k] of the ten planned calls, followed by the
    release of the handle or by nothing; a run that returns no error made
    all ten.  At most one veth pair is made. *)
Theorem cmdAdd_calls_in_order {T : TypesNetConf} (H : Host) args r log :
  exec (cmdAdd H args) = (r, log) ->
  exists k,
    (k <= 10)%nat
    /\ (map kindOf log = firstn k plan \/ map kindOf log = firstn k plan ++ [KClose])
    /\ (r = inr tt -> k = 10%nat)
    /\ (length (cablesLeft log) <= 1)%nat.
Proof.
  intros Hrun. apply cmdAdd_run in Hrun.
  destruct Hrun; unfold_logs;
    first [ calls_up_to 0%nat | calls_up_to 1%nat | calls_up_to 2%nat
          | calls_up_to 3%nat | calls_up_to 4%nat | calls_up_to 5%nat
          | calls_up_to 6%nat | calls_up_to 7%nat | calls_up_to 8%nat
          | calls_up_to 9%nat | calls_up_to 10%nat ].
Qed.

Lemma cmdAdd_calls_in_order_witness :
  exec (cmdAdd healthyHost scenarioArgs) = (inr tt, scenarioLog)
  /\ exists k,
       (k <= 10)%nat
       /\ (map kindOf scenarioLog = firstn k plan
           \/ map kindOf scenarioLog = firstn k plan ++ [KClose])
       /\ ((inr tt : error + unit) = inr tt -> k = 10%nat)
       /\ (length (cablesLeft scenarioLog) <= 1)%nat.
Proof.
  split; [reflexivity|].
  apply (cmdAdd_calls_in_order (T := versionOnly) healthyHost scenarioArgs
           (inr tt) scenarioLog).
  reflexivity.
Defined.

(** X6.  [cmdAdd] stops at the first call that fails: nothing but the release
    of the handle follows a failed call and no call before it failed.  It
    returns no error exactly when the configuration loaded and no call
    failed. *)
Theorem cmdAdd_stops_at_failure {T : TypesNetConf} (H : Host) args r log :
  exec (cmdAdd H args) = (r, log) ->
  (r = inr tt <->
   (exists n version, loadNetConf (StdinData args) = inr (n, version))
   /\ forall e, In e log -> failed e = false)
  /\ (forall pre e post,
        log = pre ++ e :: post -> failed e = true ->
        (post = [] \/ post = [Close_ (mkNetNS (Netns args))])
        /\ forall e', In e' pre -> failed e' = false).
Proof.
  intros Hrun. apply cmdAdd_run in Hrun. split.
  - destruct Hrun as [err Hload|n version e Hload|n version br e Hload
                      |n version br e Hload|n version br e Hload
                      |n version br r0 e Hload|n version br r0 hostNS e Hload
                      |n version br r0 hostNS h c e Hload
                      |n version br r0 hostNS h c e Hload
                      |n version br r0 hostNS h c hostNS' e Hload
                      |n version br r0 hostNS h c hostNS' e Hload
                      |n version br r0 hostNS h c hostNS' Hload];
      unfold_logs; (split; [intros Hr | intros [Hconf Hall]]);
      try discriminate Hr;
      try (destruct Hconf as (n' & version' & Hconf);
           rewrite Hload in Hconf; discriminate Hconf);
      try reflexivity;
      try (exfalso;
           pose proof (proj2 (forallb_forall (fun e0 => negb (failed e0)) _)
                             (fun e0 Hin => f_equal negb (Hall e0 Hin))) as Hf;
           simpl in Hf; discriminate Hf).
    split; [exists n, version; exact Hload|].
    intros e0 Hin. simpl in Hin.
    repeat (destruct Hin as [<-|Hin]; [reflexivity|]). destruct Hin.
  - intros pre e post Hs Hfailed.
    destruct Hrun; unfold_logs; split_log Hs; subst; simpl in Hfailed;
      try discriminate Hfailed;
      (split; [ first [left; reflexivity | right; reflexivity]
              | intros e' Hin;
                repeat (destruct Hin as [<-|Hin]; [reflexivity|]); destruct Hin ]).
Qed.

Lemma cmdAdd_stops_at_failure_witness :
  exec (cmdAdd (hostFailingAt 6) scenarioArgs)
  = (inl (FailedToConnect "veth1a2b3c4d" "ovsbr0" (Foreign "injected")), attachFailedLog)
  /\ ([Close_ scenarioNetns] = [] \/ [Close_ scenarioNetns] = [Close_ (mkNetNS (Netns scenarioArgs))])
  /\ forall e', In e' scenarioCableLog -> failed e' = false.
Proof.
  split; [reflexivity|].
  apply (proj2 (cmdAdd_stops_at_failure (T := versionOnly) (hostFailingAt 6) scenarioArgs
                  _ attachFailedLog ltac:(reflexivity))
               scenarioCableLog
               (addPort_ scenarioSwitch "eth0" (Some (Foreign "injected")))
               [Close_ scenarioNetns]);
    reflexivity.
Defined.

(** Finds the events of a known log that a membership hypothesis can speak
    of: one goal per such event, with the equation as hypothesis. *)
Ltac pick_in_log Hin :=
  simpl in Hin;
  repeat match type of Hin with
         | _ \/ _ => destruct Hin as [Hin|Hin]; [try discriminate Hin|]
         | False => destruct Hin
         end.

Lemma loadNetConf_error {T : TypesNetConf} bytes err :
  loadNetConf bytes = inl err -> exists cause, err = FailedToLoadNetconf cause.
Proof.
  unfold loadNetConf. destruct (Unmarshal bytes _) as [cause|n]; [|discriminate].
  intros [= <-]. exists cause; reflexivity.
Qed.

(** X7.  The error [cmdAdd] returns is the error of the call that failed,
    wrapped for three calls: a failed creation of the switch is reported with
    the bridge name, a failed opening of the namespace with its path, and a
    failed add-port after the veth pair with the name of the host end and the
    bridge name of the switch.  The errors of the uplink attachment, of the
    result conversion, of entering the namespace, of the veth factory, of the
    interface lookup and of the printer are returned as they are.  With no
    call made, the error is that of the configuration. *)
Theorem cmdAdd_error_of_failed_call {T : TypesNetConf} (H : Host) args r log :
  exec (cmdAdd H args) = (r, log) ->
  (forall name cause,
     In (NewOVSSwitch_ name (inl cause)) log ->
     r = inl (FailedToCreateBridge name cause))
  /\ (forall nspath cause,
        In (GetNS_ nspath (Some cause)) log ->
        r = inl (FailedToOpenNetns nspath cause))
  /\ (forall br port cause,
        nth_error log 1 = Some (addPort_ br port (Some cause)) -> r = inl cause)
  /\ (forall cause, In (NewResultFromResult_ (inl cause)) log -> r = inl cause)
  /\ (forall netns cause, In (Do_ netns (inl cause)) log -> r = inl cause)
  /\ (forall hostNS ifName mtu cause,
        In (SetupVeth_ hostNS ifName mtu (inl cause)) log -> r = inl cause)
  /\ (forall name cause, In (InterfaceByName_ name (Some cause)) log -> r = inl cause)
  /\ (forall result version cause,
        In (PrintResult_ result version (Some cause)) log -> r = inl cause)
  /\ (log = [] -> exists cause, r = inl (FailedToLoadNetconf cause))
  /\ (forall pre hostNS ifName mtu h c br port cause post,
        log = pre ++ SetupVeth_ hostNS ifName mtu (inr (h, c))
                  :: addPort_ br port (Some cause) :: post ->
        r = inl (FailedToConnect (net.Name h) (bridgeName br) cause)).
Proof.
  intros Hrun. apply cmdAdd_run in Hrun.
  destruct Hrun as [err Hload|n version e Hload|n version br e Hload
                    |n version br e Hload|n version br e Hload
                    |n version br r0 e Hload|n version br r0 hostNS e Hload
                    |n version br r0 hostNS h c e Hload
                    |n version br r0 hostNS h c e Hload
                    |n version br r0 hostNS h c hostNS' e Hload
                    |n version br r0 hostNS h c hostNS' e Hload
                    |n version br r0 hostNS h c hostNS' Hload];
    unfold_logs;
    repeat match goal with
           | |- _ /\ _ => split
           end;
    try (intros; match goal with
                 | Hin : In _ _ |- _ => pick_in_log Hin; inversion Hin; subst; reflexivity
                 end);
    try (intros ? ? ? Hnth; simpl in Hnth; try discriminate Hnth;
         inversion Hnth; subst; reflexivity);
    try (simpl; intros Hnil; discriminate Hnil);
    try (intros pre0 hostNS0 ifName0 mtu0 h0 c0 br0 port0 cause0 post0 Hs;
         split_log Hs; cut_at_cable; reflexivity).
  intros _. destruct (loadNetConf_error _ _ Hload) as [cause ->].
  exists cause; reflexivity.
Qed.

Lemma cmdAdd_error_of_failed_call_witness :
  exec (cmdAdd (hostFailingAt 0) scenarioArgs)
  = (inl (FailedToCreateBridge "ovsbr0" (Foreign "injected")),
     [NewOVSSwitch_ "ovsbr0" (inl (Foreign "injected"))])
  /\ exec (cmdAdd (hostFailingAt 1) scenarioArgs)
     = (inl (Foreign "injected"),
        [NewOVSSwitch_ "ovsbr0" (inr scenarioSwitch);
         addPort_ scenarioSwitch "eth1" (Some (Foreign "injected"))])
  /\ exec (cmdAdd (hostFailingAt 6) scenarioArgs)
     = (inl (FailedToConnect "veth1a2b3c4d" "ovsbr0" (Foreign "injected")),
        attachFailedLog)
  /\ (inl (FailedToCreateBridge "ovsbr0" (Foreign "injected")) : error + unit)
     = inl (FailedToCreateBridge "ovsbr0" (Foreign "injected"))
  /\ (inl (Foreign "injected") : error + unit) = inl (Foreign "injected")
  /\ (inl (FailedToConnect "veth1a2b3c4d" "ovsbr0" (Foreign "injected")) : error + unit)
     = inl (FailedToConnect (net.Name (hostVethOf 1500)) (bridgeName scenarioSwitch)
                            (Foreign "injected")).
Proof.
  split; [reflexivity|]. split; [reflexivity|]. split; [reflexivity|].
  split; [|split].
  - apply (proj1 (cmdAdd_error_of_failed_call (T := versionOnly) (hostFailingAt 0)
                    scenarioArgs _ [NewOVSSwitch_ "ovsbr0" (inl (Foreign "injected"))]
                    ltac:(reflexivity))
                 "ovsbr0" (Foreign "injected")).
    left; reflexivity.
  - apply (proj1 (proj2 (proj2 (cmdAdd_error_of_failed_call (T := versionOnly)
                    (hostFailingAt 1) scenarioArgs _
                    [NewOVSSwitch_ "ovsbr0" (inr scenarioSwitch);
                     addPort_ scenarioSwitch "eth1" (Some (Foreign "injected"))]
                    ltac:(reflexivity))))
                 scenarioSwitch "eth1" (Foreign "injected")).
    reflexivity.
  - pose proof (cmdAdd_error_of_failed_call (T := versionOnly) (hostFailingAt 6)
                  scenarioArgs _ attachFailedLog ltac:(reflexivity))
      as (_ & _ & _ & _ & _ & _ & _ & _ & _ & Hattach).
    apply (Hattach (firstn 5 scenarioCableLog) scenarioHostNS "eth0" 1500%Z
                   (hostVethOf 1500) (containerVethOf "eth0" 1500)
                   scenarioSwitch "eth0" (Foreign "injected") [Close_ scenarioNetns]).
    reflexivity.
Defined.

(** X8.  Every call of a run carries the values of the request: the switch is
    made under the configured bridge name, the namespace opened, entered and
    released is the one of the request, the veth pair is asked for under the
    interface name of the request with the configured MTU, the lookup is of
    that interface name, and the result is printed for the version of the
    configuration.  Ports are added to the switch that [NewOVSSwitch]
    returned, and the veth factory is given the host namespace that entering
    the target namespace handed over. *)
Theorem cmdAdd_calls_carry_request {T : TypesNetConf} (H : Host) args r log
        (n : NetConf) version :
  exec (cmdAdd H args) = (r, log) ->
  loadNetConf (StdinData args) = inr (n, version) ->
  (forall e, In e log -> carriesRequest args n version e)
  /\ (forall br port out,
        In (addPort_ br port out) log -> In (NewOVSSwitch_ (BrName n) (inr br)) log)
  /\ (forall hostNS ifName mtu out,
        In (SetupVeth_ hostNS ifName mtu out) log ->
        In (Do_ (mkNetNS (Netns args)) (inr hostNS)) log).
Proof.
  intros Hrun. apply cmdAdd_run in Hrun. revert n version.
  destruct Hrun as [err Hload|n version e Hload|n version br e Hload
                    |n version br e Hload|n version br e Hload
                    |n version br r0 e Hload|n version br r0 hostNS e Hload
                    |n version br r0 hostNS h c e Hload
                    |n version br r0 hostNS h c e Hload
                    |n version br r0 hostNS h c hostNS' e Hload
                    |n version br r0 hostNS h c hostNS' e Hload
                    |n version br r0 hostNS h c hostNS' Hload];
    intros n' version' Hconf; rewrite Hload in Hconf;
    try discriminate Hconf;
    injection Hconf as <- <-; unfold_logs;
    (split;
     [ intros e0 Hin; simpl in Hin;
       repeat (destruct Hin as [<-|Hin];
               [first [exact I | reflexivity | split; reflexivity]|]);
       destruct Hin
     | split;
       [ intros br0 port out Hin; pick_in_log Hin; inversion Hin; subst;
         simpl; tauto
       | intros hostNS0 ifName0 mtu0 out Hin; pick_in_log Hin; inversion Hin; subst;
         simpl; tauto ] ]).
Qed.

Lemma cmdAdd_calls_carry_request_witness :
  exec (cmdAdd healthyHost scenarioArgs) = (inr tt, scenarioLog)
  /\ loadNetConf (StdinData scenarioArgs) = inr (scenarioNetConf, "0.3.1")
  /\ carriesRequest scenarioArgs scenarioNetConf "0.3.1"
       (SetupVeth_ scenarioHostNS "eth0" 1500
          (inr (hostVethOf 1500, containerVethOf "eth0" 1500)))
  /\ In (NewOVSSwitch_ (BrName scenarioNetConf) (inr scenarioSwitch)) scenarioLog.
Proof.
  pose proof (cmdAdd_calls_carry_request (T := versionOnly) healthyHost scenarioArgs
                (inr tt) scenarioLog scenarioNetConf "0.3.1"
                ltac:(reflexivity) ltac:(reflexivity)) as (Hcarry & Hports & _).
  split; [reflexivity|]. split; [reflexivity|]. split.
  - apply Hcarry. simpl. tauto.
  - apply (Hports scenarioSwitch "eth0" None). simpl. tauto.
Defined.

(** X9.  A port is added to the switch at two places only: as the second
    call, right after the switch was made, and right after the veth factory
    returned a pair.  Without a veth pair no port other than the uplink is
    added. *)
Theorem cmdAdd_attach_points {T : TypesNetConf} (H : Host) args r log :
  exec (cmdAdd H args) = (r, log) ->
  forall pre br port out post,
    log = pre ++ addPort_ br port out :: post ->
    (exists name, pre = [NewOVSSwitch_ name (inr br)])
    \/ (exists before hostNS ifName mtu h c,
          pre = before ++ [SetupVeth_ hostNS ifName mtu (inr (h, c))]).
Proof.
  intros Hrun pre br0 port out post Hs. apply cmdAdd_run in Hrun.
  destruct Hrun; unfold_logs; split_log Hs;
    match goal with
    | Hhd : _ = addPort_ _ _ _ |- _ => inversion Hhd; subst
    end;
    first [ left; eexists; reflexivity
          | right;
            match goal with
            | |- exists before _ _ _ _ _, ?l = _ => exists (removelast l)
            end;
            do 5 eexists; reflexivity ].
Qed.

Lemma cmdAdd_attach_points_witness :
  exec (cmdAdd healthyHost scenarioArgs) = (inr tt, scenarioLog)
  /\ ((exists name, scenarioCableLog = [NewOVSSwitch_ name (inr scenarioSwitch)])
      \/ (exists before hostNS ifName mtu h c,
            scenarioCableLog = before ++ [SetupVeth_ hostNS ifName mtu (inr (h, c))])).
Proof.
  split; [reflexivity|].
  apply (cmdAdd_attach_points (T := versionOnly) healthyHost scenarioArgs
           (inr tt) scenarioLog ltac:(reflexivity)
           scenarioCableLog scenarioSwitch "eth0" None (skipn 7 scenarioLog)).
  reflexivity.
Defined.

(* ===================================================================== *)
(** * Attachment and teardown of one configuration *)
(* ===================================================================== *)

(** X10.  For requests with the same configuration, the teardown returns no
    error exactly when the attachment makes at least one call, that is when
    it gets past the loading of the configuration; when the teardown fails,
    the attachment fails with the same error before any call.  So the
    teardown of a configuration that was attached succeeds. *)
Theorem cmdDel_after_cmdAdd {T : TypesNetConf} (H : Host) args args' :
  StdinData args' = StdinData args ->
  (fst (exec (cmdDel args')) = inr tt <-> snd (exec (cmdAdd H args)) <> [])
  /\ (forall err,
        fst (exec (cmdDel args')) = inl err ->
        exec (cmdAdd H args) = (inl err, []))
  /\ (fst (exec (cmdAdd H args)) = inr tt -> exec (cmdDel args') = (inr tt, [])).
Proof.
  intros Hsame. rewrite cmdDel_run, Hsame.
  destruct (exec (cmdAdd H args)) as [r log] eqn:Hrun.
  apply cmdAdd_run in Hrun.
  destruct Hrun as [err Hload|n version e Hload|n version br e Hload
                    |n version br e Hload|n version br e Hload
                    |n version br r0 e Hload|n version br r0 hostNS e Hload
                    |n version br r0 hostNS h c e Hload
                    |n version br r0 hostNS h c e Hload
                    |n version br r0 hostNS h c hostNS' e Hload
                    |n version br r0 hostNS h c hostNS' e Hload
                    |n version br r0 hostNS h c hostNS' Hload];
    rewrite Hload; unfold_logs; simpl;
    (split;
     [ split;
       [ intros Hd; first [discriminate Hd | discriminate]
       | intros Hlog; first [reflexivity | contradiction Hlog; reflexivity] ]
     | split;
       [ intros err0 Hd; first [discriminate Hd | injection Hd as <-; reflexivity]
       | intros Ha; first [discriminate Ha | reflexivity] ] ]).
Qed.

Lemma cmdDel_after_cmdAdd_witness :
  StdinData scenarioArgs = StdinData scenarioArgs
  /\ exec (cmdAdd healthyHost scenarioArgs) = (inr tt, scenarioLog)
  /\ exec (cmdDel scenarioArgs) = (inr tt, []).
Proof.
  split; [reflexivity|]. split; [reflexivity|].
  apply (proj2 (proj2 (cmdDel_after_cmdAdd (T := versionOnly) healthyHost
                         scenarioArgs scenarioArgs eq_refl))).
  reflexivity.
Defined.

(** X11.  [cmdAdd] attaches the uplink whether or not one is configured: when
    no member of the configuration names the uplink and the switch was made,
    the next call adds a port of empty name to the switch. *)
Theorem cmdAdd_attaches_unnamed_uplink {T : TypesNetConf} (H : Host) args r log :
  exec (cmdAdd H args) = (r, log) ->
  (forall k v, In (k, v) (membersOf (StdinData args)) -> namesPNIC k = false) ->
  forall name br,
    nth_error log 0 = Some (NewOVSSwitch_ name (inr br)) ->
    exists out, nth_error log 1 = Some (addPort_ br EmptyString out).
Proof.
  intros Hrun Hno name br0 Hfirst. apply cmdAdd_run in Hrun.
  destruct Hrun as [err Hload|n version e Hload|n version br e Hload
                    |n version br e Hload|n version br e Hload
                    |n version br r0 e Hload|n version br r0 hostNS e Hload
                    |n version br r0 hostNS h c e Hload
                    |n version br r0 hostNS h c e Hload
                    |n version br r0 hostNS h c hostNS' e Hload
                    |n version br r0 hostNS h c hostNS' e Hload
                    |n version br r0 hostNS h c hostNS' Hload];
    unfold_logs; simpl in Hfirst; try discriminate Hfirst;
    injection Hfirst as _ <-;
    rewrite (loadNetConf_no_uplink _ _ _ Hload Hno);
    eexists; reflexivity.
Qed.

Lemma cmdAdd_attaches_unnamed_uplink_witness :
  exec (cmdAdd (hostFailingAt 2) noUplinkArgs)
  = (inl (FailedToOpenNetns "/proc/1234/ns/net" (Foreign "injected")),
     [NewOVSSwitch_ "ovsbr0" (inr scenarioSwitch);
      addPort_ scenarioSwitch EmptyString None;
      GetNS_ "/proc/1234/ns/net" (Some (Foreign "injected"))])
  /\ exists out,
       nth_error [NewOVSSwitch_ "ovsbr0" (inr scenarioSwitch);
                  addPort_ scenarioSwitch EmptyString None;
                  GetNS_ "/proc/1234/ns/net" (Some (Foreign "injected"))] 1
       = Some (addPort_ scenarioSwitch EmptyString out).
Proof.
  split; [reflexivity|].
  apply (cmdAdd_attaches_unnamed_uplink (T := versionOnly) (hostFailingAt 2)
           noUplinkArgs
           (inl (FailedToOpenNetns "/proc/1234/ns/net" (Foreign "injected")))
           [NewOVSSwitch_ "ovsbr0" (inr scenarioSwitch);
            addPort_ scenarioSwitch EmptyString None;
            GetNS_ "/proc/1234/ns/net" (Some (Foreign "injected"))]
           ltac:(reflexivity)) with (name := "ovsbr0").
  - simpl. intros k v [[= <- _]|[[= <- _]|[]]]; reflexivity.
  - reflexivity.
Defined.

(* ===================================================================== *)
(** * Keys and hardware addresses *)
(* ===================================================================== *)

Section KeyCase.
Context {T : TypesNetConf}.

Lemma decodeMember_same_field k k' v (n : NetConf) :
  (namesBridge k = true /\ namesBridge k' = true)
  \/ (namesMtu k = true /\ namesMtu k' = true)
  \/ (namesPNIC k = true /\ namesPNIC k' = true) ->
  decodeMember k v n = decodeMember k' v n.
Proof.
  intros [[Hk Hk']|[[Hk Hk']|[Hk Hk']]].
  - unfold namesBridge in Hk, Hk'. unfold decodeMember. rewrite Hk, Hk'. reflexivity.
  - pose proof (proj1 (names_one_field k) Hk) as Hb.
    pose proof (proj1 (names_one_field k') Hk') as Hb'.
    unfold namesMtu, namesBridge in Hk, Hk', Hb, Hb'.
    unfold decodeMember. rewrite Hb, Hb', Hk, Hk'. reflexivity.
  - destruct (proj2 (names_one_field k) Hk) as [Hb Hm].
    destruct (proj2 (names_one_field k') Hk') as [Hb' Hm'].
    unfold namesPNIC, namesMtu, namesBridge in Hk, Hk', Hb, Hb', Hm, Hm'.
    unfold decodeMember. rewrite Hb, Hb', Hm, Hm', Hk, Hk'. reflexivity.
Qed.

Lemma decodeObject_same_field pre k k' v post (n : NetConf) :
  (forall m : NetConf, decodeMember k v m = decodeMember k' v m) ->
  match decodeObject (pre ++ (k, v) :: post) n,
        decodeObject (pre ++ (k', v) :: post) n with
  | inr a, inr b => a = b
  | inl _, inl _ => True
  | _, _ => False
  end.
Proof.
  intros Hsame. rewrite !decodeObject_app.
  destruct (decodeObject pre n) as [err|n1]; [exact I|].
  simpl. rewrite Hsame.
  destruct (decodeMember k' v n1) as [n2|]; [|exact I].
  destruct (decodeObject post n2); [exact I | reflexivity].
Qed.

End KeyCase.

(** X13.  The letter case of a member key does not matter: two documents that
    differ in the spelling of one key only, both spellings naming the same
    one of the three fields of the plugin, are accepted or rejected together
    and give the same configuration. *)
Theorem loadNetConf_key_case {T : TypesNetConf} pre k k' v post :
  (namesBridge k = true /\ namesBridge k' = true)
  \/ (namesMtu k = true /\ namesMtu k' = true)
  \/ (namesPNIC k = true /\ namesPNIC k' = true) ->
  forall accepted,
    loadNetConf (Some (JObject (pre ++ (k, v) :: post))) = inr accepted
    <-> loadNetConf (Some (JObject (pre ++ (k', v) :: post))) = inr accepted.
Proof.
  intros Hfield accepted.
  assert (Hsame : forall m : NetConf, decodeMember k v m = decodeMember k' v m)
    by (intros m; apply decodeMember_same_field, Hfield).
  pose proof (decodeObject_same_field pre k k' v post
                (mkNetConf types_zero defaultBrName 0 EmptyString) Hsame) as Hboth.
  unfold loadNetConf, Unmarshal.
  destruct (decodeObject (pre ++ (k, v) :: post) _) as [e1|n1],
           (decodeObject (pre ++ (k', v) :: post) _) as [e2|n2];
    try contradiction.
  - split; discriminate.
  - subst n2. reflexivity.
Qed.

Lemma loadNetConf_key_case_witness :
  @loadNetConf versionOnly
    (Some (JObject [("cniVersion", JString "0.3.1"); ("bridge", JString "br-int")]))
  = inr (@mkNetConf versionOnly "0.3.1" "br-int" 0 EmptyString, "0.3.1")
  <-> @loadNetConf versionOnly
        (Some (JObject [("cniVersion", JString "0.3.1"); ("BRIDGE", JString "br-int")]))
      = inr (@mkNetConf versionOnly "0.3.1" "br-int" 0 EmptyString, "0.3.1").
Proof.
  apply (loadNetConf_key_case (T := versionOnly)
           [("cniVersion", JString "0.3.1")] "bridge" "BRIDGE" (JString "br-int") []).
  left. split; reflexivity.
Defined.

(** The two hex digits of a byte give the byte back. *)
Lemma hexValue_of_byte (b : Byte.byte) :
  Byte.of_N (16 * hexValue (net.hexDigit (N.shiftr (Byte.to_N b) 4))
             + hexValue (net.hexDigit (N.land (Byte.to_N b) 15)))
  = Some b.
Proof. destruct b; vm_compute; reflexivity. Qed.

Lemma appendHex_first (b : Byte.byte) rest :
  net.appendHex 0 (b :: rest)
  = String (net.hexDigit (N.shiftr (Byte.to_N b) 4))
      (String (net.hexDigit (N.land (Byte.to_N b) 15)) (net.appendHex 1 rest)).
Proof. reflexivity. Qed.

Lemma appendHex_next i (b : Byte.byte) rest :
  net.appendHex (S i) (b :: rest)
  = String ":"
      (String (net.hexDigit (N.shiftr (Byte.to_N b) 4))
         (String (net.hexDigit (N.land (Byte.to_N b) 15))
            (net.appendHex (S (S i)) rest))).
Proof. reflexivity. Qed.

Lemma byte_of_hex_digits (b1 b2 : Byte.byte) :
  net.hexDigit (N.shiftr (Byte.to_N b1) 4) = net.hexDigit (N.shiftr (Byte.to_N b2) 4) ->
  net.hexDigit (N.land (Byte.to_N b1) 15) = net.hexDigit (N.land (Byte.to_N b2) 15) ->
  b1 = b2.
Proof.
  intros Hhi Hlo.
  pose proof (hexValue_of_byte b1) as H1.
  rewrite Hhi, Hlo, hexValue_of_byte in H1.
  injection H1 as H1. symmetry; exact H1.
Qed.

Lemma appendHex_inj (a1 a2 : list Byte.byte) :
  forall i j, net.appendHex (S i) a1 = net.appendHex (S j) a2 -> a1 = a2.
Proof.
  revert a2. induction a1 as [|b1 r1 IH]; intros [|b2 r2] i j.
  - reflexivity.
  - rewrite appendHex_next. discriminate.
  - rewrite appendHex_next. discriminate.
  - rewrite !appendHex_next. intros [= Hhi Hlo Hrest].
    rewrite (byte_of_hex_digits b1 b2 Hhi Hlo). f_equal.
    apply (IH r2 _ _ Hrest).
Qed.

(** X14.  The text that [setupVeth] stores as hardware address of the
    container end tells the address: two addresses with the same text are
    the same address. *)
Theorem HardwareAddr_String_inj (a1 a2 : list Byte.byte) :
  net.HardwareAddr_String a1 = net.HardwareAddr_String a2 -> a1 = a2.
Proof.
  unfold net.HardwareAddr_String.
  destruct a1 as [|b1 r1], a2 as [|b2 r2].
  - reflexivity.
  - change (length (b2 :: r2) =? 0)%nat with false. cbv iota.
    change (length (@nil Byte.byte) =? 0)%nat with true. cbv iota.
    rewrite appendHex_first. discriminate.
  - change (length (b1 :: r1) =? 0)%nat with false. cbv iota.
    change (length (@nil Byte.byte) =? 0)%nat with true. cbv iota.
    rewrite appendHex_first. discriminate.
  - change (length (b1 :: r1) =? 0)%nat with false.
    change (length (b2 :: r2) =? 0)%nat with false. cbv iota.
    rewrite !appendHex_first. intros [= Hhi Hlo Hrest].
    rewrite (byte_of_hex_digits b1 b2 Hhi Hlo). f_equal.
    apply (appendHex_inj _ _ _ _ Hrest).
Qed.

Lemma HardwareAddr_String_inj_witness :
  [Byte.x0a; Byte.x58; Byte.x0a; Byte.x01; Byte.x00; Byte.x03]
  = [Byte.x0a; Byte.x58; Byte.x0a; Byte.x01; Byte.x00; Byte.x03].
Proof.
  apply HardwareAddr_String_inj. reflexivity.
Defined.
